(** * modl: task classification on dictionary loadings

    A shallow embedding of [modl/classification/fmri.py]
    ([MultiProjectionTransformer], [fMRITaskClassifier] and
    [_logistic_regression]) together with a model of the two operations of
    the factorisation engine ([CodeSolver.solve], [DictionaryUpdater.update])
    whose Cython source, [dict_fact_fast.pyx], is only declared by
    [modl/decomposition/faster/setup.py].

    Python objects are records of attributes, an attribute that was never
    assigned is [None] of an [option]; exceptions are the [Raise] branch of
    [outcome]; code that assigns attributes or calls into scikit-learn runs
    in the state-and-exception monad [Py].  The code is Python 3 (its
    callers name [FileNotFoundError]): [/] is true division and a string
    has [__iter__].  Python floats are IEEE-754 binary64 numbers
    ([spec_float] at precision 53), Python integers are [Z], numpy's
    [int64] wraps around.  scikit-learn and [numpy.linalg] are interfaces
    ([Sklearn], [Numpy]): the properties hold for whatever they do. *)

From Stdlib Require Import ZArith QArith Qabs Lia Bool List String.
From Stdlib Require Import Floats.SpecFloat.
Import ListNotations.

Local Open Scope string_scope.
Local Open Scope Z_scope.

Set Implicit Arguments.
Set Warnings "-register-all".

(* ================================================================= *)
(** ** Exceptions and the interpreter monad *)

(** The exceptions the modelled code can meet.  [LibraryError] stands for
    any exception type of numpy or scikit-learn the model does not name
    ([LinAlgError], [NotFittedError], ...). *)
Inductive exn : Type :=
| AssertionError
| AttributeError
| IndexError
| OverflowError
| TypeError
| UnboundLocalError
| ValueError
| ZeroDivisionError
| LibraryError (name : string).

Inductive outcome (A : Type) : Type :=
| Ok (a : A)
| Raise (e : exn).

Arguments Ok {A} a.
Arguments Raise {A} e.

(** A computation over a mutable state [S]: the state reached is returned
    whether the computation returns or raises, as an assignment made before
    a [raise] stays made. *)
Definition Py (S A : Type) : Type := S -> S * outcome A.

Definition ret {S A : Type} (a : A) : Py S A := fun s => (s, Ok a).

Definition raise {S A : Type} (e : exn) : Py S A := fun s => (s, Raise e).

Definition bind {S A B : Type} (m : Py S A) (k : A -> Py S B) : Py S B :=
  fun s =>
    match m s with
    | (s', Ok a) => k a s'
    | (s', Raise e) => (s', Raise e)
    end.

(** A pure, fallible step (an arithmetic operation, an attribute lookup). *)
Definition lift {S A : Type} (o : outcome A) : Py S A := fun s => (s, o).

Definition get {S : Type} : Py S S := fun s => (s, Ok s).

Definition modify {S : Type} (f : S -> S) : Py S unit := fun s => (f s, Ok tt).

Declare Scope py_scope.
Delimit Scope py_scope with py.
Notation "x <- m ;; k" := (bind m (fun x => k))
  (at level 61, m at next level, right associativity) : py_scope.
Notation "m ;;; k" := (bind m (fun _ => k))
  (at level 61, right associativity) : py_scope.
Local Open Scope py_scope.

(** [getattr o]: reading an attribute that was never assigned. *)
Definition getattr {A : Type} (o : option A) : outcome A :=
  match o with
  | Some a => Ok a
  | None => Raise AttributeError
  end.

(** Sequencing fallible steps over a list, left to right: a list
    comprehension whose element expression can raise. *)
Fixpoint mapM {A B : Type} (f : A -> outcome B) (l : list A) : outcome (list B) :=
  match l with
  | [] => Ok []
  | a :: l' =>
      match f a with
      | Raise e => Raise e
      | Ok b =>
          match mapM f l' with
          | Raise e => Raise e
          | Ok bs => Ok (b :: bs)
          end
      end
  end.

(* ================================================================= *)
(** ** Python values and arithmetic *)

(** binary64: 53 bits of precision, exponents below 1024. *)
Definition prec : Z := 53.
Definition emax : Z := 1024.

Definition float : Type := spec_float.

Definition fmul : float -> float -> float := SFmul prec emax.
Definition fdiv : float -> float -> float := SFdiv prec emax.
Definition flt : float -> float -> bool := SFltb.

(** The literal [1e2]. *)
Definition f1e2 : float := S754_finite false 7036874417766400 (-46).

(** A finite float above zero, in canonical binary64 form. *)
Definition positive_finite (x : float) : Prop :=
  match x with
  | S754_finite false m e => bounded prec emax m e = true
  | _ => False
  end.

(** The values the arguments of the modelled functions range over.
    [VArray] is a one-dimensional float64 [ndarray] such as
    [np.logspace] returns. *)
Inductive value : Type :=
| VNone
| VBool (b : bool)
| VInt (n : Z)
| VFloat (x : float)
| VStr (s : string)
| VTuple (items : list value)
| VList (items : list value)
| VArray (items : list float).

Definition is_None (v : value) : bool :=
  match v with
  | VNone => true
  | _ => false
  end.

(** [hasattr(v, '__iter__')]: strings, tuples, lists and arrays have the
    attribute, [None], booleans and numbers do not. *)
Definition hasattr_iter (v : value) : bool :=
  match v with
  | VStr _ | VTuple _ | VList _ | VArray _ => true
  | VNone | VBool _ | VInt _ | VFloat _ => false
  end.

(** [float(n)]: the nearest binary64, ties to even; [OverflowError] when
    that is an infinity. *)
Definition float_of_int (n : Z) : outcome float :=
  match binary_normalize prec emax n 0 false with
  | S754_infinity _ => Raise OverflowError
  | x => Ok x
  end.

(** [a / b] on integers: the correctly rounded quotient. *)
Definition int_truediv (a b : Z) : outcome float :=
  if b =? 0 then Raise ZeroDivisionError
  else if a =? 0 then Ok (S754_zero (b <? 0))
  else
    let '(q, e, l) := SFdiv_core_binary prec emax (Z.abs a) 0 (Z.abs b) 0 in
    match binary_round_aux prec emax (xorb (a <? 0) (b <? 0)) q e l with
    | S754_infinity _ => Raise OverflowError
    | x => Ok x
    end.

Definition is_zero (x : float) : bool :=
  match x with
  | S754_zero _ => true
  | _ => false
  end.

(** [v * c] for a float literal [c]. *)
Definition mul_float (v : value) (c : float) : outcome value :=
  match v with
  | VBool b =>
      match float_of_int (Z.b2z b) with
      | Ok x => Ok (VFloat (fmul x c))
      | Raise e => Raise e
      end
  | VInt n =>
      match float_of_int n with
      | Ok x => Ok (VFloat (fmul x c))
      | Raise e => Raise e
      end
  | VFloat x => Ok (VFloat (fmul x c))
  | VArray xs => Ok (VArray (map (fun x => fmul x c) xs))
  | VNone | VStr _ | VTuple _ | VList _ => Raise TypeError
  end.

(** [v / n] for an integer literal [n]. *)
Definition truediv_int (v : value) (n : Z) : outcome value :=
  match v with
  | VBool b =>
      match int_truediv (Z.b2z b) n with
      | Ok x => Ok (VFloat x)
      | Raise e => Raise e
      end
  | VInt a =>
      match int_truediv a n with
      | Ok x => Ok (VFloat x)
      | Raise e => Raise e
      end
  | VFloat x =>
      match float_of_int n with
      | Ok d => if is_zero d then Raise ZeroDivisionError else Ok (VFloat (fdiv x d))
      | Raise e => Raise e
      end
  | VArray xs =>
      match float_of_int n with
      | Ok d => Ok (VArray (map (fun x => fdiv x d) xs))
      | Raise e => Raise e
      end
  | VNone | VStr _ | VTuple _ | VList _ => Raise TypeError
  end.

(** Keyword arguments and parameter dictionaries, in insertion order. *)
Definition kwargs : Type := list (string * value).

(* ================================================================= *)
(** ** scikit-learn objects *)

(** The constructor arguments [_logistic_regression] passes; every other
    argument of [LogisticRegression] keeps the library's default. *)
Module LogisticRegression.
Record t : Type := {
  multi_class : value;
  C : value;
  solver : value;
  tol : value;
  max_iter : value;
  verbose : value;
  random_state : value
}.
End LogisticRegression.

(** An unfitted estimator is its constructor arguments. *)
Inductive estimator : Type :=
| LogisticRegression (params : LogisticRegression.t)
| StandardScaler
| Pipeline (steps : list (string * estimator)).

Module ShuffleSplit.
Record t : Type := { test_size : value }.
End ShuffleSplit.

Module GridSearchCV.
Record t : Type := {
  estimator : estimator;
  param_grid : kwargs;
  cv : ShuffleSplit.t;
  refit : bool;
  n_jobs : value
}.
End GridSearchCV.

(** The logistic regression an estimator holds: itself, or the step of a
    pipeline. *)
Fixpoint find_step (steps : list (string * estimator)) : option LogisticRegression.t :=
  match steps with
  | [] => None
  | (_, LogisticRegression p) :: _ => Some p
  | _ :: rest => find_step rest
  end.

Definition logistic_regression_of (e : estimator) : option LogisticRegression.t :=
  match e with
  | LogisticRegression p => Some p
  | StandardScaler => None
  | Pipeline steps => find_step steps
  end.

(** What scikit-learn does is not part of the repository: the library is
    an interface.  Fitting draws on a random state ([ShuffleSplit] and the
    [sag] solver are randomised), so the two fits thread the library's
    hidden state [rng]; [GridSearchCV_fit] returns the [best_params_] of
    the fitted search, [estimator_fit] the coefficients learnt. *)
Class Sklearn : Type := {
  array : Type;
  target : Type;
  labels : Type;
  classes : Type;
  coef : Type;
  rng : Type;
  GridSearchCV_fit :
    GridSearchCV.t -> array -> target -> rng -> rng * outcome kwargs;
  set_params : estimator -> kwargs -> outcome estimator;
  estimator_fit : estimator -> array -> target -> rng -> rng * outcome coef;
  estimator_predict : estimator -> coef -> array -> outcome target;
  LabelEncoder_fit_transform : labels -> outcome (classes * target);
  LabelEncoder_inverse_transform : option classes -> target -> outcome labels
}.

Section Library.
Context {sk : Sklearn}.

(** A [LabelEncoder] object: [None] until [fit_transform] has set
    [classes_]. *)
Definition LabelEncoder : Type := option classes.

(** A fitted estimator: its parameters and what [fit] learnt. *)
Record fitted : Type := { params_ : estimator; coef_ : coef }.

(** The calls into the library.  The [log] of a [world] records them in
    the order they are made; it is there to be reasoned about, the code
    does not read it. *)
Inductive event : Type :=
| Call_GridSearchCV_fit (g : GridSearchCV.t) (X : array) (y : target)
| Call_set_params (e : estimator) (kw : kwargs)
| Call_fit (e : estimator) (X : array) (y : target).

Record world : Type := { lib : rng; log : list event }.

Definition call_GridSearchCV_fit (g : GridSearchCV.t) (X : array) (y : target)
  : Py world kwargs :=
  fun w =>
    let (r, o) := GridSearchCV_fit g X y (lib w) in
    ({| lib := r; log := log w ++ [Call_GridSearchCV_fit g X y] |}, o).

Definition call_set_params (e : estimator) (kw : kwargs) : Py world estimator :=
  fun w =>
    ({| lib := lib w; log := log w ++ [Call_set_params e kw] |}, set_params e kw).

Definition call_fit (e : estimator) (X : array) (y : target) : Py world coef :=
  fun w =>
    let (r, o) := estimator_fit e X y (lib w) in
    ({| lib := r; log := log w ++ [Call_fit e X y] |}, o).

(* ================================================================= *)
(** ** [_logistic_regression] (fmri.py, lines 91-128) *)

(** Lines 103-106: the tolerances of the search phase. *)
Definition resolve_early_tol (tol early_tol : value) : outcome value :=
  if is_None early_tol then mul_float tol f1e2 else Ok early_tol.

Definition resolve_early_max_iter (max_iter early_max_iter : value) : outcome value :=
  if is_None early_max_iter then truediv_int max_iter 10 else Ok early_max_iter.

(** Lines 108-115: the estimator, bare or behind a standard scaler. *)
Definition build_estimator (standardize : bool) (C early_tol early_max_iter
  verbose random_state : value) : estimator :=
  let lr :=
    LogisticRegression
      {| LogisticRegression.multi_class := VStr "multinomial";
         LogisticRegression.C := C;
         LogisticRegression.solver := VStr "sag";
         LogisticRegression.tol := early_tol;
         LogisticRegression.max_iter := early_max_iter;
         LogisticRegression.verbose := verbose;
         LogisticRegression.random_state := random_state |} in
  if standardize
  then Pipeline [("standard_scaler", StandardScaler); ("logistic_regression", lr)]
  else lr.

(** Lines 116-121: [grid_lr] is assigned only when [C] is iterable. *)
Definition build_grid (lr : estimator) (C test_size n_jobs : value)
  : option GridSearchCV.t :=
  if hasattr_iter C
  then Some {| GridSearchCV.estimator := lr;
               GridSearchCV.param_grid := [("logistic_regression__C", C)];
               GridSearchCV.cv := {| ShuffleSplit.test_size := test_size |};
               GridSearchCV.refit := false;
               GridSearchCV.n_jobs := n_jobs |}
  else None.

(** Reading a local variable: [UnboundLocalError] when no assignment to it
    was executed. *)
Definition local {A : Type} (v : option A) : outcome A :=
  match v with
  | Some a => Ok a
  | None => Raise UnboundLocalError
  end.

(** The keyword arguments of the second [set_params] (lines 125-126). *)
Definition refit_params (tol max_iter : value) : kwargs :=
  [("logistic_regression__tol", tol); ("logistic_regression__max_iter", max_iter)].

Definition _logistic_regression (X_train : array) (y_train : target)
  (standardize : bool) (C tol max_iter early_tol early_max_iter test_size
   n_jobs verbose random_state : value) : Py world fitted :=
  early_tol <- lift (resolve_early_tol tol early_tol) ;;
  early_max_iter <- lift (resolve_early_max_iter max_iter early_max_iter) ;;
  let lr := build_estimator standardize C early_tol early_max_iter verbose
              random_state in
  let grid_lr := build_grid lr C test_size n_jobs in
  g <- lift (local grid_lr) ;;
  best_params <- call_GridSearchCV_fit g X_train y_train ;;
  lr <- call_set_params lr best_params ;;
  lr <- call_set_params lr (refit_params tol max_iter) ;;
  c <- call_fit lr X_train y_train ;;
  ret {| params_ := lr; coef_ := c |}.

(** The defaults of the signature (lines 92-101). *)
Definition default_standardize : bool := false.
Definition default_C : value := VInt 1.
Definition default_tol : value := VFloat (S754_finite false 7555786372591432 (-76)).
Definition default_max_iter : value := VInt 1000.
Definition default_test_size : value := VFloat (S754_finite false 7205759403792794 (-56)).
Definition default_n_jobs : value := VInt 1.
Definition default_verbose : value := VInt 0.

End Library.

(* ================================================================= *)
(** ** [fMRITaskClassifier] (fmri.py, lines 47-88) *)

(** joblib's [Memory(cachedir=...)]. *)
Record Memory : Type := { cachedir : value }.

(** The object held in [self.transformer] is duck-typed: what the
    classifier can see of it is whether it has a [transform] attribute and
    whether it can be called ([__call__]). *)
Record transformer_object (Imgs Confounds Out : Type) : Type := {
  attr_transform : option (Imgs -> option Confounds -> outcome Out);
  attr_call : option (Imgs -> option Confounds -> outcome Out)
}.

(** Calling an object that defines no [__call__]. *)
Definition callable {A : Type} (o : option A) : outcome A :=
  match o with
  | Some f => Ok f
  | None => Raise TypeError
  end.

Module fMRITaskClassifier.
Section Class_.
Context {sk : Sklearn} {Imgs Confounds : Type}.

Record t : Type := {
  transformer : transformer_object Imgs Confounds array;
  memory : Memory;
  standardize : bool;
  C : value;
  tol : value;
  max_iter : value;
  n_jobs : value;
  random_state : value;
  memory_level : value;
  le_ : option LabelEncoder;
  lr_ : option fitted
}.

(** Lines 48-69.  Line 64 reads [self.max_iter = max_iter,]: the trailing
    comma makes the right-hand side a one-element tuple. *)
Definition __init__ (transformer : transformer_object Imgs Confounds array)
  (C : value) (standardize : bool) (max_iter tol random_state n_jobs : value)
  (memory : Memory) (memory_level : value) : t :=
  {| transformer := transformer;
     memory := memory;
     standardize := standardize;
     C := C;
     tol := tol;
     max_iter := VTuple [max_iter];
     n_jobs := n_jobs;
     random_state := random_state;
     memory_level := memory_level;
     le_ := None;
     lr_ := None |}.

Definition set_le_ (v : LabelEncoder) (self : t) : t :=
  {| transformer := transformer self;
     memory := memory self;
     standardize := standardize self;
     C := C self;
     tol := tol self;
     max_iter := max_iter self;
     n_jobs := n_jobs self;
     random_state := random_state self;
     memory_level := memory_level self;
     le_ := Some v;
     lr_ := lr_ self |}.

Definition set_lr_ (v : fitted) (self : t) : t :=
  {| transformer := transformer self;
     memory := memory self;
     standardize := standardize self;
     C := C self;
     tol := tol self;
     max_iter := max_iter self;
     n_jobs := n_jobs self;
     random_state := random_state self;
     memory_level := memory_level self;
     le_ := le_ self;
     lr_ := Some v |}.

(** A method runs on the object and the library's state. *)
Definition in_world {A : Type} (m : Py world A) : Py (t * world) A :=
  fun s =>
    let (w', o) := m (snd s) in ((fst s, w'), o).

Definition assign (f : t -> t) : Py (t * world) unit :=
  modify (fun s => (f (fst s), snd s)).

(** nilearn's [CacheMixin._cache(func, ignore=...)] wraps [func] in the
    memoising cache of [self.memory]; with a [Memory] that has no cache
    directory, and on every miss, the wrapper calls [func] on the arguments
    it was given.  That is the case modelled.  With a cache directory the
    library also raises a [memory_level] of [0] to [1], and on a hit it
    returns the stored result without calling [func]: what is proved of
    [memory], of [memory_level] and of the calls behind a returned
    estimator is proved of the modelled case only. *)
Definition _cache {A : Type} (func : A) : A := func.

(** The keyword arguments [fit] forwards (lines 77-82); the routine's
    remaining parameters keep their defaults. *)
Definition fit_call (self : t) (X : array) (y : target) : Py world fitted :=
  _cache _logistic_regression X y
    (standardize self) (C self) (tol self) (max_iter self)
    VNone VNone default_test_size (n_jobs self) default_verbose
    (random_state self).

(** Lines 71-82. *)
Definition fit (imgs : Imgs) (y : labels) (confounds : option Confounds)
  : Py (t * world) unit :=
  s <- get ;;
  transform <- lift (getattr (attr_transform (transformer (fst s)))) ;;
  X <- lift (transform imgs confounds) ;;
  assign (set_le_ None) ;;;
  cy <- lift (LabelEncoder_fit_transform y) ;;
  assign (set_le_ (Some (fst cy))) ;;;
  s <- get ;;
  lr <- in_world (fit_call (fst s) X (snd cy)) ;;
  assign (set_lr_ lr).

(** Lines 84-88.  Line 85 calls the transformer object itself. *)
Definition predict (imgs : Imgs) (confounds : option Confounds)
  : Py (t * world) labels :=
  s <- get ;;
  call <- lift (callable (attr_call (transformer (fst s)))) ;;
  X <- lift (call imgs confounds) ;;
  lr <- lift (getattr (lr_ (fst s))) ;;
  y <- lift (estimator_predict (params_ lr) (coef_ lr) X) ;;
  le <- lift (getattr (le_ (fst s))) ;;
  lift (LabelEncoder_inverse_transform le y).

End Class_.
End fMRITaskClassifier.

(* ================================================================= *)
(** ** numpy arrays *)

(** Binding on [outcome], for code that assigns no attribute. *)
Definition obind {A B : Type} (o : outcome A) (k : A -> outcome B) : outcome B :=
  match o with
  | Ok a => k a
  | Raise e => Raise e
  end.

Notation "x <~ o ;; k" := (obind o (fun x => k))
  (at level 61, o at next level, right associativity) : py_scope.

Section Arrays.
Variable F : Type.

(** A two-dimensional array: its shape and its rows.  A one-dimensional
    array is the list of its elements. *)
Record matrix : Type := { nrows : nat; ncols : nat; cells : list (list F) }.

Inductive ndarray : Type :=
| Vec (v : list F)
| Mat (m : matrix).

(** What [self.bases] and the elements met when iterating it can be. *)
Inductive object : Type :=
| ONone
| OScalar (x : F)
| OArray (a : ndarray)
| OList (items : list object).

End Arrays.

Arguments ONone {F}.

(** numpy's integer and floating scalars ([np.int64], [np.float64]). *)
Inductive np_number : Type :=
| np_int64 (n : Z)
| np_float64 (x : float).

(** 64-bit two's-complement wrap-around of [np.int64] arithmetic. *)
Definition wrap64 (z : Z) : Z := (z + 2 ^ 63) mod 2 ^ 64 - 2 ^ 63.

(** [np.sum(np.array(l))] for a list of array dimensions: an empty list
    makes a float64 array, whose sum is [0.0]; a list of integers makes an
    int64 array. *)
Definition np_sum (l : list nat) : np_number :=
  match l with
  | [] => np_float64 (S754_zero false)
  | _ => np_int64 (wrap64 (fold_left Z.add (map Z.of_nat l) 0))
  end.

(** [v += n] for [n] an element of an int64 array. *)
Definition np_iadd (v : np_number) (n : nat) : np_number :=
  match v with
  | np_int64 z => np_int64 (wrap64 (z + Z.of_nat n))
  | np_float64 x =>
      np_float64 (SFadd prec emax x (binary_normalize prec emax (Z.of_nat n) 0 false))
  end.

(** What numpy's linear algebra does is not part of the repository:
    [linalg_solve a b] is [numpy.linalg.solve(a, b)], which raises on a
    singular or non-square [a].  [F0] fills reads outside an array's
    rows, which arrays built by [tabulate] never make. *)
Class Numpy (F : Type) : Type := {
  F0 : F;
  linalg_solve : ndarray F -> ndarray F -> outcome (ndarray F)
}.

Section ArrayOps.
Context {F : Type} {np : Numpy F}.

Definition cell (m : matrix F) (i j : nat) : F := nth j (nth i (cells m) []) F0.

Definition tabulate (r c : nat) (f : nat -> nat -> F) : matrix F :=
  {| nrows := r;
     ncols := c;
     cells := map (fun i => map (f i) (seq 0 c)) (seq 0 r) |}.

Definition row (m : matrix F) (i : nat) : list F := map (cell m i) (seq 0 (ncols m)).

(** [a.T] *)
Definition T (a : ndarray F) : ndarray F :=
  match a with
  | Vec v => Vec v
  | Mat m => Mat (tabulate (ncols m) (nrows m) (fun i j => cell m j i))
  end.

(** [for x in o] *)
Definition iterate (o : object F) : outcome (list (object F)) :=
  match o with
  | ONone => Raise TypeError
  | OScalar _ => Raise TypeError
  | OArray (Vec v) => Ok (map (@OScalar F) v)
  | OArray (Mat m) => Ok (map (fun i => OArray (Vec (row m i))) (seq 0 (nrows m)))
  | OList items => Ok items
  end.

(** [o.shape] *)
Definition shape (o : object F) : outcome (list nat) :=
  match o with
  | ONone => Raise AttributeError
  | OList _ => Raise AttributeError
  | OScalar _ => Ok []
  | OArray (Vec v) => Ok [List.length v]
  | OArray (Mat m) => Ok [nrows m; ncols m]
  end.

(** [s[i]] on a tuple or an array of integers. *)
Definition index (s : list nat) (i : nat) : outcome nat :=
  match nth_error s i with
  | Some n => Ok n
  | None => Raise IndexError
  end.

(** [o.T] for an element that has a shape. *)
Definition T_of (o : object F) : outcome (ndarray F) :=
  match o with
  | OArray a => Ok (T a)
  | OScalar x => Raise (LibraryError "LinAlgError")
  | ONone => Raise AttributeError
  | OList _ => Raise AttributeError
  end.

(** [X.shape[0]] *)
Definition shape0 (X : ndarray F) : nat :=
  match X with
  | Vec v => List.length v
  | Mat m => nrows m
  end.

(** [np.empty((n, w))]: a fresh array holding whatever the memory it got
    held, [uninit]. *)
Definition np_empty (n : nat) (w : np_number) (uninit : nat -> nat -> F)
  : outcome (matrix F) :=
  match w with
  | np_int64 z => if z <? 0 then Raise ValueError else Ok (tabulate n (Z.to_nat z) uninit)
  | np_float64 _ => Raise TypeError
  end.

(** Broadcasting [v] to the shape [(n, w)]: an axis of [v] must have the
    target's List.length or List.length one. *)
Definition broadcast (v : ndarray F) (n w : nat) : option (nat -> nat -> F) :=
  match v with
  | Vec x =>
      if (List.length x =? w)%nat then Some (fun _ j => nth j x F0)
      else if (List.length x =? 1)%nat then Some (fun _ _ => nth 0 x F0)
      else None
  | Mat m =>
      if (((nrows m =? n) || (nrows m =? 1)) && ((ncols m =? w) || (ncols m =? 1)))%nat
      then Some (fun i j =>
                   cell m (if (nrows m =? n)%nat then i else 0%nat)
                          (if (ncols m =? w)%nat then j else 0%nat))
      else None
  end.

(** [L[:, lo:hi] = v]: the slice is clipped to the columns [L] has, [v]
    is broadcast to it, and a shape that does not fit is a [ValueError]. *)
Definition setitem_cols (L : matrix F) (lo hi : nat) (v : ndarray F)
  : outcome (matrix F) :=
  let lo' := Nat.min lo (ncols L) in
  let hi' := Nat.max lo' (Nat.min hi (ncols L)) in
  match broadcast v (nrows L) (hi' - lo') with
  | Some f =>
      Ok (tabulate (nrows L) (ncols L)
            (fun i j =>
               if ((lo' <=? j) && (j <? hi'))%nat then f i (j - lo')%nat
               else cell L i j))
  | None => Raise ValueError
  end.

End ArrayOps.

(* ================================================================= *)
(** ** [MultiProjectionTransformer] (fmri.py, lines 15-44) *)

Module MultiProjectionTransformer.
Section Class_.
Context {F : Type} {np : Numpy F}.

(** The attributes: [bases] and [identity] are assigned by [__init__],
    [n_loadings_] by [fit]; [basis] is read and assigned by [fit] only. *)
Record t : Type := {
  bases : object F;
  identity : bool;
  basis : option (object F);
  n_loadings_ : option np_number
}.

(** Lines 16-19. *)
Definition __init__ (bases : object F) (identity : bool) : t :=
  {| bases := bases; identity := identity; basis := None; n_loadings_ := None |}.

Definition set_basis (v : object F) (self : t) : t :=
  {| bases := bases self;
     identity := identity self;
     basis := Some v;
     n_loadings_ := n_loadings_ self |}.

Definition set_n_loadings_ (v : np_number) (self : t) : t :=
  {| bases := bases self;
     identity := identity self;
     basis := basis self;
     n_loadings_ := Some v |}.

(** [isinstance(o, list)] *)
Definition is_list (o : object F) : bool :=
  match o with
  | OList _ => true
  | _ => false
  end.

(** [basis.shape[i]] *)
Definition shape_at (i : nat) (basis : object F) : outcome nat :=
  s <~ shape basis ;; index s i.

(** Lines 21-31.  The arguments [X] and [y] are not used. *)
Definition fit (X y : object F) : Py t t :=
  self <- get ;;
  b <- lift (getattr (basis self)) ;;
  (if is_list b then ret tt else modify (set_basis (OList [bases self]))) ;;;
  items <- lift (iterate (bases self)) ;;
  rows <- lift (mapM (shape_at 0) items) ;;
  modify (set_n_loadings_ (np_sum rows)) ;;;
  items <- lift (iterate (bases self)) ;;
  n_features <- lift (mapM (shape_at 1) items) ;;
  first <- lift (index n_features 0) ;;
  (if forallb (Nat.eqb first) n_features then ret tt else raise AssertionError) ;;;
  (if identity self
   then self <- get ;;
        n <- lift (getattr (n_loadings_ self)) ;;
        modify (set_n_loadings_ (np_iadd n first))
   else ret tt) ;;;
  get.

(** Lines 37-41: the loop over the bases, threading [loadings] and
    [offset]. *)
Fixpoint project (items : list (object F)) (X : ndarray F) (loadings : matrix F)
  (offset : nat) : outcome (matrix F * nat) :=
  match items with
  | [] => Ok (loadings, offset)
  | basis :: rest =>
      loadings_length <~ shape_at 0 basis ;;
      bT <~ T_of basis ;;
      rhs <~ linalg_solve bT (T X) ;;
      loadings <~ setitem_cols loadings offset (offset + loadings_length) rhs ;;
      project rest X loadings (offset + loadings_length)
  end.

(** Lines 33-44.  [uninit] is what [np.empty] finds in the memory it
    allocates; [y] and [confounds] are not used. *)
Definition transform (self : t) (uninit : nat -> nat -> F) (X : ndarray F)
  (y confounds : object F) : outcome (matrix F) :=
  let n_samples := shape0 X in
  w <~ getattr (n_loadings_ self) ;;
  loadings <~ np_empty n_samples w uninit ;;
  items <~ iterate (bases self) ;;
  lo <~ project items X loadings 0 ;;
  if identity self
  then setitem_cols (fst lo) (snd lo) (ncols (fst lo)) X
  else Ok (fst lo).

End Class_.
End MultiProjectionTransformer.

(* ================================================================= *)
(** ** The factorisation engine *)

(** The engine's source is not among the repository's Python files; the
    two operations below follow the specification's sections 3, 4.1, 4.3
    and 7, in exact rational arithmetic.  What the specification leaves
    open is a parameter. *)

Inductive engine_error : Type :=
| DimensionMismatch.

Module CodeSolver.
Section Solve.

(** The closed-form ridge solve of section 4.1 on the masked
    sub-dictionary, total because a rank-deficient system is retried with
    a larger [alpha] inside it. *)
Variable ridge : list (list Q) -> list Q -> Q -> list Q.

Definition all_zero (mask : list bool) : bool := forallb negb mask.

(** The columns of a row a mask keeps. *)
Fixpoint masked (mask : list bool) (r : list Q) : list Q :=
  match mask, r with
  | b :: mask', x :: r' => if b then x :: masked mask' r' else masked mask' r'
  | _, _ => []
  end.

Definition width_matches (sample : list Q) (dictionary : list (list Q)) : bool :=
  forallb (fun r => (List.length r =? List.length sample)%nat) dictionary.

(** Modelled from the spec: [CodeSolver.solve] of the missing
    [dict_fact_fast.pyx].  Section 4.1: an all-zero mask returns the zero
    code vector with no computation (section 8: always, no error raised),
    so that test comes first; section 7: a sample whose width differs from
    the dictionary's aborts the call; otherwise the code is the ridge
    solution on the observed columns. *)
Definition solve (sample : list Q) (mask : list bool) (dictionary : list (list Q))
  (alpha : Q) : engine_error + list Q :=
  if all_zero mask then inr (repeat 0%Q (List.length dictionary))
  else if negb (width_matches sample dictionary) then inl DimensionMismatch
  else inr (ridge (map (masked mask) dictionary) (masked mask sample) alpha).

End Solve.
End CodeSolver.

Module DictionaryUpdater.
Section Update.
Local Open Scope Q_scope.

(** The norm that bounds the rows; the specification does not name it. *)
Variable norm : list Q -> Q.

(** The sufficient statistics [A] and [B]. *)
Record statistics : Type := { stat_A : list (list Q); stat_B : list (list Q) }.

(** The weight [w_t = t^-learning_rate] of section 4.3. *)
Variable weight : nat -> Q.

(** The exponentially weighted accumulation of [A] and [B]. *)
Variable accumulate : Q -> statistics -> list Q -> list Q -> statistics.

(** One block-coordinate step on row [k] of the dictionary, restricted to
    the columns of [subset], against the accumulated statistics. *)
Variable descend : statistics -> list (list Q) -> list nat -> nat -> list Q.

(** The number of sweeps ("a few steps"). *)
Variable steps : nat.

(** Projection onto the rows of norm at most one: a row outside is scaled
    back onto the boundary. *)
Definition project (r : list Q) : list Q :=
  if Qle_bool (norm r) 1 then r else map (Qmult (/ norm r)) r.

(** One sweep over the rows, in order; a row's step sees the rows already
    recomputed. *)
Fixpoint sweep (s : statistics) (subset : list nat) (done todo : list (list Q))
  : list (list Q) :=
  match todo with
  | [] => done
  | r :: rest =>
      let r' := project (descend s (done ++ todo) subset (List.length done)) in
      sweep s subset (done ++ [r']) rest
  end.

Fixpoint descent (n : nat) (s : statistics) (subset : list nat)
  (dictionary : list (list Q)) : list (list Q) :=
  match n with
  | O => dictionary
  | S n' => descent n' s subset (sweep s subset [] dictionary)
  end.

(** Modelled from the spec: [DictionaryUpdater.update] of the missing
    [dict_fact_fast.pyx].  Section 4.3: [A] and [B] are updated with the
    forgetting factor of step [t], the rows are recomputed on the columns
    of [subset] by a few sweeps of block-coordinate descent against the
    updated statistics, and each updated row is projected back onto the
    bounded-norm set. *)
Definition update (s : statistics) (dictionary : list (list Q)) (code sample : list Q)
  (subset : list nat) (t : nat) : statistics * list (list Q) :=
  let s' := accumulate (weight t) s code sample in
  (s', descent steps s' subset dictionary).

(** The invariant of section 3: no row exceeds the bound. *)
Definition rows_bounded (dictionary : list (list Q)) : Prop :=
  Forall (fun r => norm r <= 1) dictionary.

End Update.

(** The sum of absolute values, a norm the updater can be run with. *)
Definition l1_norm (r : list Q) : Q := fold_right (fun x acc => Qabs x + acc)%Q 0%Q r.

End DictionaryUpdater.

(* ================================================================= *)
(** ** Executable stand-ins for the libraries *)

(** The theorems below hold for every [Sklearn] and every [Numpy]; the
    instances here let the model run on concrete inputs.  [set_params]
    follows scikit-learn's convention for nested parameters
    ([step__param] reaches the parameter of a pipeline's step, an unknown
    name is a [ValueError]); the search returns the first candidate of
    its grid, and the fits learn nothing. *)
Module Reference.

Definition set_field (p : LogisticRegression.t) (name : string) (v : value)
  : outcome LogisticRegression.t :=
  let mk mc c so to mi ve rs :=
    {| LogisticRegression.multi_class := mc; LogisticRegression.C := c;
       LogisticRegression.solver := so; LogisticRegression.tol := to;
       LogisticRegression.max_iter := mi; LogisticRegression.verbose := ve;
       LogisticRegression.random_state := rs |} in
  let '(LogisticRegression.Build_t mc c so to mi ve rs) := p in
  if String.eqb name "multi_class" then Ok (mk v c so to mi ve rs)
  else if String.eqb name "C" then Ok (mk mc v so to mi ve rs)
  else if String.eqb name "solver" then Ok (mk mc c v to mi ve rs)
  else if String.eqb name "tol" then Ok (mk mc c so v mi ve rs)
  else if String.eqb name "max_iter" then Ok (mk mc c so to v ve rs)
  else if String.eqb name "verbose" then Ok (mk mc c so to mi v rs)
  else if String.eqb name "random_state" then Ok (mk mc c so to mi ve v)
  else Raise ValueError.

(** [key.split('__', 1)] when the separator occurs. *)
Definition split_nested (key : string) : option (string * string) :=
  match String.index 0 "__" key with
  | Some i =>
      Some (String.substring 0 i key,
            String.substring (i + 2) (String.length key - (i + 2)) key)
  | None => None
  end.

Fixpoint set_step (steps : list (string * estimator)) (step sub : string) (v : value)
  : outcome (list (string * estimator)) :=
  match steps with
  | [] => Raise ValueError
  | (name, e) :: rest =>
      if String.eqb name step
      then match e with
           | LogisticRegression p =>
               p' <~ set_field p sub v ;; Ok ((name, LogisticRegression p') :: rest)
           | _ => Raise ValueError
           end
      else rest' <~ set_step rest step sub v ;; Ok ((name, e) :: rest')
  end.

Definition set_param (e : estimator) (key : string) (v : value) : outcome estimator :=
  match e with
  | LogisticRegression p =>
      match split_nested key with
      | Some _ => Raise ValueError
      | None => p' <~ set_field p key v ;; Ok (LogisticRegression p')
      end
  | StandardScaler => Raise ValueError
  | Pipeline steps =>
      match split_nested key with
      | Some (step, sub) => steps' <~ set_step steps step sub v ;; Ok (Pipeline steps')
      | None => Raise ValueError
      end
  end.

Fixpoint set_params (e : estimator) (kw : kwargs) : outcome estimator :=
  match kw with
  | [] => Ok e
  | (key, v) :: rest => e' <~ set_param e key v ;; set_params e' rest
  end.

(** The candidates a grid entry lists. *)
Definition candidates (v : value) : list value :=
  match v with
  | VTuple items | VList items => items
  | VArray items => map VFloat items
  | _ => []
  end.

Fixpoint first_candidates (grid : kwargs) : outcome kwargs :=
  match grid with
  | [] => Ok []
  | (key, v) :: rest =>
      match candidates v with
      | [] => Raise ValueError
      | c :: _ => more <~ first_candidates rest ;; Ok ((key, c) :: more)
      end
  end.

Definition search (g : GridSearchCV.t) : outcome kwargs :=
  best <~ first_candidates (GridSearchCV.param_grid g) ;;
  _ <~ set_params (GridSearchCV.estimator g) best ;;
  Ok best.

Fixpoint position (s : string) (l : list string) : nat :=
  match l with
  | [] => O
  | x :: l' => if String.eqb x s then O else S (position s l')
  end.

Fixpoint distinct (l : list string) : list string :=
  match l with
  | [] => []
  | x :: l' => x :: filter (fun y => negb (String.eqb x y)) (distinct l')
  end.

#[export] Instance numpy : Numpy float := {
  F0 := S754_zero false;
  linalg_solve a b :=
    match a, b with
    | Mat {| nrows := 1; ncols := 1; cells := [[x]] |},
      Mat {| nrows := 1; ncols := 1; cells := [[y]] |} =>
        if is_zero x then Raise (LibraryError "LinAlgError")
        else Ok (Mat {| nrows := 1; ncols := 1; cells := [[fdiv y x]] |})
    | _, _ => Raise (LibraryError "LinAlgError")
    end
}.

#[export] Instance sklearn : Sklearn := {
  array := matrix float;
  target := list nat;
  labels := list string;
  classes := list string;
  coef := unit;
  rng := nat;
  GridSearchCV_fit g _ _ r := (S r, search g);
  set_params := set_params;
  estimator_fit _ _ _ r := (S r, Ok tt);
  estimator_predict _ _ X := Ok (repeat O (nrows X));
  LabelEncoder_fit_transform y :=
    Ok (distinct y, map (fun s => position s (distinct y)) y);
  LabelEncoder_inverse_transform le y :=
    match le with
    | Some cs => Ok (map (fun i => nth i cs "") y)
    | None => Raise (LibraryError "NotFittedError")
    end
}.

(** Arguments for a run: one sample with one feature, two labels, three
    candidate strengths. *)
Definition one : float := S754_finite false 4503599627370496 (-52).
Definition X1 : matrix float := {| nrows := 1; ncols := 1; cells := [[one]] |}.
Definition grid_C : value := VList [VFloat one; VFloat f1e2].
Definition w0 : world := {| lib := O; log := [] |}.

(** The repository's own transformer over one 1x1 basis, on which
    [basis] was assigned from outside so that [fit] can get past its
    first line. *)
Definition unfitted_projection : MultiProjectionTransformer.t :=
  {| MultiProjectionTransformer.bases := OList [OArray (Mat X1)];
     MultiProjectionTransformer.identity := true;
     MultiProjectionTransformer.basis := Some ONone;
     MultiProjectionTransformer.n_loadings_ := None |}.

(** The same object as [fit] leaves it: one loading for the basis and one
    for the identity block. *)
Definition projection : MultiProjectionTransformer.t :=
  {| MultiProjectionTransformer.bases := OList [OArray (Mat X1)];
     MultiProjectionTransformer.identity := true;
     MultiProjectionTransformer.basis := Some (OList [OList [OArray (Mat X1)]]);
     MultiProjectionTransformer.n_loadings_ := Some (np_int64 2) |}.

(** What a classifier sees of it: a [transform] method and no
    [__call__]. *)
Definition as_object (self : MultiProjectionTransformer.t)
  : transformer_object (ndarray float) (object float) array :=
  {| attr_transform :=
       Some (fun X confounds =>
               MultiProjectionTransformer.transform self (fun _ _ => one) X ONone
                 (match confounds with Some c => c | None => ONone end));
     attr_call := None |}.

(** A classifier over that transformer, as [__init__] leaves it. *)
Definition fresh_classifier
  : fMRITaskClassifier.t (Imgs := ndarray float) (Confounds := object float) :=
  fMRITaskClassifier.__init__ (as_object projection) grid_C true (VInt 100)
    default_tol VNone (VInt 1) {| cachedir := VNone |} (VInt 1).

(** The same classifier after [clf.max_iter = 100]: an integer in place
    of the tuple [__init__] stored. *)
Definition classifier
  : fMRITaskClassifier.t (Imgs := ndarray float) (Confounds := object float) :=
  {| fMRITaskClassifier.transformer := as_object projection;
     fMRITaskClassifier.memory := {| cachedir := VNone |};
     fMRITaskClassifier.standardize := true;
     fMRITaskClassifier.C := grid_C;
     fMRITaskClassifier.tol := default_tol;
     fMRITaskClassifier.max_iter := VInt 100;
     fMRITaskClassifier.n_jobs := VInt 1;
     fMRITaskClassifier.random_state := VNone;
     fMRITaskClassifier.memory_level := VInt 1;
     fMRITaskClassifier.le_ := None;
     fMRITaskClassifier.lr_ := None |}.

End Reference.

(* ================================================================= *)
(** ** The scripts' own logistic regressions *)

(** The literal [1e-4]. *)
Definition f1e_4 : float := S754_finite false 7378697629483821 (-66).

(** The literal [0.1]. *)
Definition f0_1 : float := S754_finite false 7205759403792794 (-56).

(** The literal [1.0], the library's default for [C]. *)
Definition f1_0 : float := S754_finite false 4503599627370496 (-52).

(** [examples/old/task_predict_from_nii.py], lines 123-146: the routine
    [fmri.py] grew out of, with the search-phase settings written in. *)
Module task_predict_from_nii.
Section Script.
Context {sk : Sklearn}.

Definition _logistic_regression (X_train : array) (y_train : target)
  (standardize : bool) (C tol max_iter n_jobs random_state : value)
  : Py world fitted :=
  let lr :=
    LogisticRegression
      {| LogisticRegression.multi_class := VStr "multinomial";
         LogisticRegression.C := C;
         LogisticRegression.solver := VStr "sag";
         LogisticRegression.tol := VFloat f1e_4;
         LogisticRegression.max_iter := VInt 1000;
         LogisticRegression.verbose := VInt 2;
         LogisticRegression.random_state := random_state |} in
  let lr :=
    if standardize
    then Pipeline [("standard_scaler", StandardScaler); ("logistic_regression", lr)]
    else lr in
  let grid_lr :=
    if hasattr_iter C
    then Some {| GridSearchCV.estimator := lr;
                 GridSearchCV.param_grid := [("logistic_regression__C", C)];
                 GridSearchCV.cv := {| ShuffleSplit.test_size := VFloat f0_1 |};
                 GridSearchCV.refit := false;
                 GridSearchCV.n_jobs := n_jobs |}
    else None in
  g <- lift (local grid_lr) ;;
  best_params <- call_GridSearchCV_fit g X_train y_train ;;
  lr <- call_set_params lr best_params ;;
  lr <- call_set_params lr [("logistic_regression__tol", tol);
                            ("logistic_regression__max_iter", max_iter)] ;;
  c <- call_fit lr X_train y_train ;;
  ret {| params_ := lr; coef_ := c |}.

End Script.
End task_predict_from_nii.

(** [examples/development/task/task_predict.py], lines 119-134: the
    estimator, or a grid search around it, is fitted in one call.  The
    search keeps the library's default [refit=True], so what the routine
    returns is then the fitted search; [LogisticRegression] is given no
    [C] and keeps the library's default [1.0]. *)
Module task_predict.
Section Script.
Context {sk : Sklearn}.

(** [np.logspace(-1, 1, 10)] *)
Variable logspace : value.

(** What [lr] names at the [return]: a fitted estimator, or a fitted
    search with its [best_params_]. *)
Inductive result : Type :=
| Estimator (fitted_ : fitted)
| Search (g : GridSearchCV.t) (best_params_ : kwargs).

Definition _logistic_regression (X_train : array) (y_train : target)
  (standardize cross_val : bool) (n_jobs random_state : value) : Py world result :=
  let lr :=
    LogisticRegression
      {| LogisticRegression.multi_class := VStr "multinomial";
         LogisticRegression.C := VFloat f1_0;
         LogisticRegression.solver := VStr "sag";
         LogisticRegression.tol := VFloat f1e_4;
         LogisticRegression.max_iter := VInt 1000;
         LogisticRegression.verbose := VInt 2;
         LogisticRegression.random_state := random_state |} in
  let lr :=
    if standardize
    then Pipeline [("standard_scaler", StandardScaler); ("logistic_regression", lr)]
    else lr in
  if cross_val
  then
    let g := {| GridSearchCV.estimator := lr;
                GridSearchCV.param_grid := [("logistic_regression__C", logspace)];
                GridSearchCV.cv := {| ShuffleSplit.test_size := VFloat f0_1 |};
                GridSearchCV.refit := true;
                GridSearchCV.n_jobs := n_jobs |} in
    best <- call_GridSearchCV_fit g X_train y_train ;;
    ret (Search g best)
  else
    c <- call_fit lr X_train y_train ;;
    ret (Estimator {| params_ := lr; coef_ := c |}).

End Script.
End task_predict.

(* ================================================================= *)
(** ** More stand-ins *)

Module RowSystems.

(** [numpy.linalg.solve] for a 1x1 matrix against one row of right-hand
    sides: the row divided by the matrix's entry. *)
#[export] Instance numpy : Numpy float := {
  F0 := S754_zero false;
  linalg_solve a b :=
    match a, b with
    | Mat {| nrows := 1; ncols := 1; cells := [[x]] |},
      Mat {| nrows := 1; ncols := c; cells := [ys] |} =>
        if is_zero x then Raise (LibraryError "LinAlgError")
        else Ok (Mat {| nrows := 1; ncols := c; cells := [map (fun y => fdiv y x) ys] |})
    | _, _ => Raise (LibraryError "LinAlgError")
    end
}.

(** Two samples of one feature. *)
Definition X2 : matrix float :=
  {| nrows := 2; ncols := 1; cells := [[Reference.one]; [Reference.one]] |}.

End RowSystems.

(** Further objects for runs. *)
Module Variants.

(** One basis of two features. *)
Definition wide : matrix float :=
  {| nrows := 1; ncols := 2; cells := [[Reference.one; Reference.one]] |}.

(** A transformer that has been given a [basis], over two bases of
    different widths. *)
Definition mixed_projection : MultiProjectionTransformer.t :=
  {| MultiProjectionTransformer.bases :=
       OList [OArray (Mat Reference.X1); OArray (Mat wide)];
     MultiProjectionTransformer.identity := true;
     MultiProjectionTransformer.basis := Some ONone;
     MultiProjectionTransformer.n_loadings_ := None |}.

(** A transformer object that can also be called, [__call__] doing what
    [transform] does. *)
Definition as_callable (self : MultiProjectionTransformer.t)
  : transformer_object (ndarray float) (object float) (@array Reference.sklearn) :=
  let f := fun X (confounds : option (object float)) =>
             MultiProjectionTransformer.transform (np := Reference.numpy) self
               (fun _ _ => Reference.one) X ONone
               (match confounds with Some c => c | None => ONone end) in
  {| attr_transform := Some f; attr_call := Some f |}.

(** [Reference.classifier] over the callable transformer. *)
Definition callable_classifier
  : fMRITaskClassifier.t (sk := Reference.sklearn) (Imgs := ndarray float)
      (Confounds := object float) :=
  {| fMRITaskClassifier.transformer := as_callable Reference.projection;
     fMRITaskClassifier.memory := {| cachedir := VNone |};
     fMRITaskClassifier.standardize := true;
     fMRITaskClassifier.C := Reference.grid_C;
     fMRITaskClassifier.tol := default_tol;
     fMRITaskClassifier.max_iter := VInt 100;
     fMRITaskClassifier.n_jobs := VInt 1;
     fMRITaskClassifier.random_state := VNone;
     fMRITaskClassifier.memory_level := VInt 1;
     fMRITaskClassifier.le_ := None;
     fMRITaskClassifier.lr_ := None |}.

(** [Reference.classifier] with [C] at the default of [__init__], the
    integer [1]. *)
Definition scalar_classifier
  : fMRITaskClassifier.t (sk := Reference.sklearn) (Imgs := ndarray float)
      (Confounds := object float) :=
  {| fMRITaskClassifier.transformer := Reference.as_object Reference.projection;
     fMRITaskClassifier.memory := {| cachedir := VNone |};
     fMRITaskClassifier.standardize := true;
     fMRITaskClassifier.C := VInt 1;
     fMRITaskClassifier.tol := default_tol;
     fMRITaskClassifier.max_iter := VInt 100;
     fMRITaskClassifier.n_jobs := VInt 1;
     fMRITaskClassifier.random_state := VNone;
     fMRITaskClassifier.memory_level := VInt 1;
     fMRITaskClassifier.le_ := None;
     fMRITaskClassifier.lr_ := None |}.

End Variants.

(* ================================================================= *)
(** ** Notions the properties are stated with *)

Section Notions.
Context {F : Type} {np : Numpy F}.

(** Two arrays of one shape that hold the same values in their first [k]
    columns. *)
Definition agree (k : nat) (L1 L2 : matrix F) : Prop :=
  exists (r c : nat) (f1 f2 : nat -> nat -> F),
    L1 = tabulate r c f1 /\ L2 = tabulate r c f2 /\
    forall i j, (i < r)%nat -> (j < k)%nat -> (j < c)%nat -> f1 i j = f2 i j.

(** The value [fit] gives [n_loadings_], from the attributes it reads. *)
Definition fitted_n_loadings (self : MultiProjectionTransformer.t) (v : np_number)
  : Prop :=
  exists items rows cols first,
    iterate (MultiProjectionTransformer.bases self) = Ok items /\
    mapM (MultiProjectionTransformer.shape_at 0) items = Ok rows /\
    mapM (MultiProjectionTransformer.shape_at 1) items = Ok cols /\
    index cols 0 = Ok first /\
    v = if MultiProjectionTransformer.identity self
        then np_iadd (np_sum rows) first
        else np_sum rows.

(** A list of two-dimensional arrays, the [bases] that [fit] gets
    through. *)
Definition matrix_list (ms : list (matrix F)) : object F :=
  OList (map (fun m => OArray (Mat m)) ms).

(** The state [fit] leaves when it returns: [basis] wrapped in a list
    unless it was one, and [n_loadings_] assigned. *)
Definition fitted_state (s : MultiProjectionTransformer.t) (b : object F)
  (v : np_number) : MultiProjectionTransformer.t (F := F) :=
  MultiProjectionTransformer.set_n_loadings_ v
    (if MultiProjectionTransformer.is_list b then s
     else MultiProjectionTransformer.set_basis
            (OList [MultiProjectionTransformer.bases s]) s).

(** numpy's contract for the shapes of [linalg.solve(a, b)] on
    two-dimensional arguments: [a] is square, [b] has as many rows as
    [a], and the solution has the shape of [b]. *)
Definition solve_shapes : Prop :=
  (forall a b r, linalg_solve (Mat a) b = Ok r -> nrows a = ncols a) /\
  (forall a b r, linalg_solve (Mat a) (Mat b) = Ok r -> nrows a = nrows b) /\
  (forall a b r, linalg_solve a (Mat b) = Ok r ->
     exists m, r = Mat m /\ nrows m = nrows b /\ ncols m = ncols b).

End Notions.

(** One step through a run written as nested matches: case analysis on
    the scrutinee that is evaluated first, dropping the branches in which
    the equation [H] equates a raised exception with a returned value. *)
Ltac first_scrutinee T tac :=
  match T with
  | context [match ?x with _ => _ end] => first [first_scrutinee x tac | tac x]
  end.

Ltac case_scrutinee H :=
  cbn beta iota zeta delta [fst snd] in H;
  let T := type of H in
  first_scrutinee T ltac:(fun x =>
    let E := fresh "E" in destruct x eqn:E; try discriminate H).

(* ================================================================= *)
(** * Properties *)

Unset Implicit Arguments.

(* ================================================================= *)
(** ** The model at work *)

Section Runs_of_the_model.
Import Reference.
Local Open Scope Q_scope.

(** [100 == 1e2], [1e-7 * 1e2 == 9.999999999999999e-06] and
    [1000 / 10 == 100.0], as Python evaluates them. *)
Example float_of_100 : float_of_int 100 = Ok f1e2.
Proof. reflexivity. Qed.

Example early_tol_of_default :
  resolve_early_tol default_tol VNone
  = Ok (VFloat (S754_finite false 5902958103587056 (-69))).
Proof. reflexivity. Qed.

Example early_max_iter_of_default :
  resolve_early_max_iter default_max_iter VNone = Ok (VFloat f1e2).
Proof. reflexivity. Qed.

(** [(100,) / 10] and [None * 1e2] *)
Example tuple_truediv : truediv_int (VTuple [VInt 100]) 10 = Raise TypeError.
Proof. reflexivity. Qed.

Example none_mul : mul_float VNone f1e2 = Raise TypeError.
Proof. reflexivity. Qed.

(** [-7 / 2 == -3.5] and [0 / -5 == -0.0] *)
Example negative_truediv :
  int_truediv (-7) 2 = Ok (S754_finite true 7881299347898368 (-51)) /\
  int_truediv 0 (-5) = Ok (S754_zero true).
Proof. split; reflexivity. Qed.

(** One sample against one 1x1 basis, identity block on: the loading of
    the basis, then the sample itself. *)
Example transform_projection :
  MultiProjectionTransformer.transform projection (fun _ _ => f1e2) (Mat X1)
    ONone ONone
  = Ok {| nrows := 1; ncols := 2; cells := [[one; one]] |}.
Proof. reflexivity. Qed.

(** Without the identity block and with a column too many, the last
    column is whatever [np.empty] found. *)
Example transform_leaks_uninit :
  MultiProjectionTransformer.transform
    {| MultiProjectionTransformer.bases := OList [OArray (Mat X1)];
       MultiProjectionTransformer.identity := false;
       MultiProjectionTransformer.basis := None;
       MultiProjectionTransformer.n_loadings_ := Some (np_int64 2) |}
    (fun _ _ => f1e2) (Mat X1) ONone ONone
  = Ok {| nrows := 1; ncols := 2; cells := [[one; f1e2]] |}.
Proof. reflexivity. Qed.

(** Two samples do not fit a 1x1 system. *)
Example transform_shape_error :
  MultiProjectionTransformer.transform projection (fun _ _ => f1e2)
    (Mat {| nrows := 2; ncols := 1; cells := [[one]; [one]] |}) ONone ONone
  = Raise (LibraryError "LinAlgError").
Proof. reflexivity. Qed.

(** A row of norm 9/4 after its step is scaled back to norm one. *)
Example update_projects :
  map (map Qred)
    (snd (DictionaryUpdater.update DictionaryUpdater.l1_norm (fun _ => 1 # 2)
            (fun _ s _ _ => s)
            (fun _ d _ k => map (Qmult 3) (nth k d []))
            1 {| DictionaryUpdater.stat_A := []; DictionaryUpdater.stat_B := [] |}
            [[1 # 2; 1 # 4]] [1] [1; 1] [0%nat; 1%nat] 1))
  = [[2 # 3; 1 # 3]].
Proof. reflexivity. Qed.

End Runs_of_the_model.

(* ================================================================= *)
(** ** binary64 arithmetic: multiplying by [1e2] *)

Section Rounding.

Lemma digits2_pos_bounds (m : positive) :
  2 ^ (Zpos (digits2_pos m) - 1) <= Zpos m < 2 ^ Zpos (digits2_pos m).
Proof.
  induction m as [m IH|m IH|]; cbn [digits2_pos].
  - rewrite Pos2Z.inj_succ.
    replace (Z.succ (Zpos (digits2_pos m)) - 1)
      with (Z.succ (Zpos (digits2_pos m) - 1)) by lia.
    rewrite !Z.pow_succ_r by lia.
    destruct IH as [IH1 IH2]. revert IH1 IH2.
    generalize (2 ^ (Zpos (digits2_pos m) - 1)) (2 ^ Zpos (digits2_pos m)).
    intros; lia.
  - rewrite Pos2Z.inj_succ.
    replace (Z.succ (Zpos (digits2_pos m)) - 1)
      with (Z.succ (Zpos (digits2_pos m) - 1)) by lia.
    rewrite !Z.pow_succ_r by lia.
    destruct IH as [IH1 IH2]. revert IH1 IH2.
    generalize (2 ^ (Zpos (digits2_pos m) - 1)) (2 ^ Zpos (digits2_pos m)).
    intros; lia.
  - simpl. lia.
Qed.

Lemma Zdigits2_bounds (z : Z) :
  0 < z -> 0 < Zdigits2 z /\ 2 ^ (Zdigits2 z - 1) <= z < 2 ^ Zdigits2 z.
Proof.
  destruct z as [|p|p]; try lia. intros _. cbn [Zdigits2].
  split; [lia | apply digits2_pos_bounds].
Qed.

(** One right shift halves a non-negative significand. *)
Lemma shr_1_m (mrs : shr_record) :
  0 <= shr_m mrs -> shr_m (shr_1 mrs) = shr_m mrs / 2.
Proof.
  destruct mrs as [m r s]; cbn [shr_m]; intros Hm.
  destruct m as [|p|p]; [reflexivity| |lia].
  destruct p as [p|p|]; cbn [shr_1 shr_m].
  - apply Z.div_unique with 1; lia.
  - apply Z.div_unique with 0; lia.
  - reflexivity.
Qed.

Lemma iter_shr_1_m (p : positive) (mrs : shr_record) :
  0 <= shr_m mrs -> shr_m (iter_pos shr_1 p mrs) = shr_m mrs / 2 ^ Zpos p.
Proof.
  revert mrs. induction p as [p IH|p IH|]; intros mrs Hm; cbn [iter_pos].
  - assert (H1 : 0 <= shr_m (shr_1 mrs))
      by (rewrite shr_1_m by lia; apply Z.div_pos; lia).
    assert (H2 : 0 <= shr_m (iter_pos shr_1 p (shr_1 mrs)))
      by (rewrite IH by lia; apply Z.div_pos; lia).
    rewrite IH, IH, shr_1_m by lia.
    rewrite !Z.div_div by lia.
    f_equal. replace (Zpos p~1) with (1 + Zpos p + Zpos p) by lia.
    rewrite !Z.pow_add_r by lia. lia.
  - assert (H2 : 0 <= shr_m (iter_pos shr_1 p mrs))
      by (rewrite IH by lia; apply Z.div_pos; lia).
    rewrite IH, IH by lia.
    rewrite !Z.div_div by lia.
    f_equal. replace (Zpos p~0) with (Zpos p + Zpos p) by lia.
    rewrite !Z.pow_add_r by lia. lia.
  - rewrite shr_1_m by lia. reflexivity.
Qed.

Lemma shr_m_shr (mrs : shr_record) (e n : Z) :
  0 <= shr_m mrs ->
  shr_m (fst (shr mrs e n)) = shr_m mrs / 2 ^ Z.max n 0 /\
  snd (shr mrs e n) = e + Z.max n 0.
Proof.
  intros Hm. destruct n as [|p|p]; cbn [shr fst snd].
  - simpl. rewrite Z.div_1_r. lia.
  - rewrite iter_shr_1_m by lia.
    replace (Z.max (Zpos p) 0) with (Zpos p) by lia. lia.
  - replace (Z.max (Zneg p) 0) with 0 by lia. simpl. rewrite Z.div_1_r. lia.
Qed.

Lemma shr_m_record_of_loc (m : Z) (l : location) : shr_m (shr_record_of_loc m l) = m.
Proof. destruct l as [|[]]; reflexivity. Qed.

Lemma round_nearest_even_ge (mx : Z) (lx : location) : mx <= round_nearest_even mx lx.
Proof.
  destruct lx as [|[]]; cbn [round_nearest_even]; try lia.
  destruct (Z.even mx); lia.
Qed.

(** Rounding a positive significand gives an infinity, or a finite float
    whose exponent is at least the one the first alignment reaches; when it
    is exactly that one, the significand is at least the truncated one. *)
Lemma binary_round_aux_lower (mx ex : Z) (lx : location) :
  0 < mx ->
  -1073 <= Zdigits2 mx + ex ->
  let n := Z.max (fexp prec emax (Zdigits2 mx + ex) - ex) 0 in
  binary_round_aux prec emax false mx ex lx = S754_infinity false \/
  exists m2 e2,
    binary_round_aux prec emax false mx ex lx = S754_finite false m2 e2 /\
    ex + n <= e2 /\ (e2 = ex + n -> mx / 2 ^ n <= Zpos m2).
Proof.
  intros Hmx Hd n.
  destruct (Zdigits2_bounds mx Hmx) as [HD [Hlo Hhi]].
  unfold binary_round_aux, shr_fexp.
  set (n0 := fexp prec emax (Zdigits2 mx + ex) - ex) in *.
  assert (Hn0 : n0 <= Zdigits2 mx - 1)
    by (unfold n0, fexp, SpecFloat.emin, prec, emax; lia).
  destruct (shr_m_shr (shr_record_of_loc mx lx) ex n0) as [Hm1 He1];
    [rewrite shr_m_record_of_loc; lia|].
  rewrite shr_m_record_of_loc in Hm1. fold n in Hm1, He1.
  destruct (shr (shr_record_of_loc mx lx) ex n0) as [mrs1 e1].
  cbn [fst snd] in Hm1, He1.
  assert (Hq1 : 1 <= shr_m mrs1).
  { rewrite Hm1. apply Z.div_le_lower_bound; [apply Z.pow_pos_nonneg; lia|].
    rewrite Z.mul_1_r. eapply Z.le_trans; [|exact Hlo].
    apply Z.pow_le_mono_r; lia. }
  pose proof (round_nearest_even_ge (shr_m mrs1) (loc_of_shr_record mrs1)) as Hr.
  set (mr := round_nearest_even (shr_m mrs1) (loc_of_shr_record mrs1)) in *.
  assert (Hmr : 0 < mr) by lia.
  destruct (Zdigits2_bounds mr Hmr) as [HD2 [Hlo2 Hhi2]].
  set (n2 := fexp prec emax (Zdigits2 mr + e1) - e1).
  assert (He1' : -1074 <= e1).
  { rewrite He1. unfold n, n0, fexp, SpecFloat.emin, prec, emax. lia. }
  assert (Hn2 : Z.max n2 0 <= Zdigits2 mr - 1)
    by (unfold n2, fexp, SpecFloat.emin, prec, emax; lia).
  destruct (shr_m_shr (shr_record_of_loc mr loc_Exact) e1 n2) as [Hm2 He2];
    [cbn; lia|].
  rewrite shr_m_record_of_loc in Hm2.
  change (Build_shr_record mr false false) with (shr_record_of_loc mr loc_Exact).
  destruct (shr (shr_record_of_loc mr loc_Exact) e1 n2) as [mrs2 e2].
  cbn [fst snd] in Hm2, He2.
  assert (Hq2 : 1 <= shr_m mrs2).
  { rewrite Hm2. apply Z.div_le_lower_bound; [apply Z.pow_pos_nonneg; lia|].
    rewrite Z.mul_1_r. eapply Z.le_trans; [|exact Hlo2].
    apply Z.pow_le_mono_r; lia. }
  destruct (shr_m mrs2) as [|m2|m2] eqn:Em2; try lia.
  destruct (Z.leb e2 (emax - prec)); [right|left; reflexivity].
  exists m2, e2. split; [reflexivity|]. split; [lia|].
  intros Heq. assert (Hz : Z.max n2 0 = 0) by lia.
  rewrite Hz in Hm2. simpl in Hm2. rewrite Z.div_1_r in Hm2. lia.
Qed.

(** A positive finite binary64 number is strictly below its product with
    [1e2], whether that product is finite or has overflowed to infinity. *)
Lemma fmul_1e2_gt (t : float) : positive_finite t -> flt t (fmul t f1e2) = true.
Proof.
  destruct t as [| | |[] m e]; cbn [positive_finite]; try contradiction.
  intros Hb. unfold bounded, canonical_mantissa in Hb.
  apply andb_true_iff in Hb. destruct Hb as [Hc He].
  apply Z.eqb_eq in Hc. apply Z.leb_le in He.
  unfold fexp, SpecFloat.emin, prec, emax in Hc.
  pose proof (digits2_pos_bounds m) as [Hmlo Hmhi].
  set (d := Zpos (digits2_pos m)) in *.
  assert (Hd : 0 < d) by (unfold d; lia).
  unfold flt, fmul, f1e2. cbn [SFmul xorb].
  set (P := Zpos (m * 7036874417766400)).
  assert (HP : P = Zpos m * (25 * 2 ^ 48))
    by (unfold P; rewrite Pos2Z.inj_mul; reflexivity).
  assert (HP0 : 0 < P) by (unfold P; lia).
  destruct (Zdigits2_bounds P HP0) as [HD [HPlo HPhi]].
  assert (HDlo : d + 52 <= Zdigits2 P).
  { destruct (Z.le_gt_cases (d + 52) (Zdigits2 P)) as [|Hlt]; [assumption|exfalso].
    assert (H : 2 ^ Zdigits2 P <= 2 ^ (d + 51)) by (apply Z.pow_le_mono_r; lia).
    replace (d + 51) with ((d - 1) + 52) in H by lia.
    rewrite Z.pow_add_r in H by lia.
    assert (2 ^ 52 < 25 * 2 ^ 48) by (vm_compute; reflexivity).
    assert (0 < 2 ^ (d - 1)) by (apply Z.pow_pos_nonneg; lia).
    nia. }
  destruct (binary_round_aux_lower P (e + -46) loc_Exact HP0)
    as [Hinf|(m2 & e2 & Hfin & Hexp & Hman)].
  { unfold prec, emax in *. lia. }
  { rewrite Hinf. reflexivity. }
  rewrite Hfin. unfold SFltb. cbn [SFcompare].
  set (n := Z.max (fexp prec emax (Zdigits2 P + (e + -46)) - (e + -46)) 0) in *.
  assert (Hn : 46 <= n /\ (n = 46 -> e = -1074))
    by (unfold n, fexp, SpecFloat.emin, prec, emax; lia).
  destruct (Z.compare_spec e e2) as [Heq|Hlt|Hgt]; [|reflexivity|lia].
  assert (Hn46 : n = 46) by lia.
  specialize (Hman ltac:(lia)). rewrite Hn46, HP in Hman.
  replace (Zpos m * (25 * 2 ^ 48)) with ((Zpos m * 100) * 2 ^ 46) in Hman
    by (change (2 ^ 48) with (4 * 2 ^ 46); ring).
  rewrite Z.div_mul in Hman by (vm_compute; discriminate).
  change (Pos.compare_cont Eq m m2) with (Pos.compare m m2).
  rewrite (proj2 (Pos.compare_lt_iff m m2)); [reflexivity|lia].
Qed.

End Rounding.

(* ================================================================= *)
(** ** [_logistic_regression] *)

Section LogisticRegressionFacts.
Context {sk : Sklearn}.

Variables (X_train : array) (y_train : target) (standardize : bool).
Variables (C tol max_iter early_tol early_max_iter : value).
Variables (test_size n_jobs verbose random_state : value).

(** The steps before the first library call either raise or produce the
    two search-phase tolerances, and leave the state as it was. *)
Lemma logistic_regression_prelude (w : world) :
  match resolve_early_tol tol early_tol, resolve_early_max_iter max_iter early_max_iter with
  | Raise e, _ =>
      _logistic_regression X_train y_train standardize C tol max_iter early_tol
        early_max_iter test_size n_jobs verbose random_state w = (w, Raise e)
  | Ok _, Raise e =>
      _logistic_regression X_train y_train standardize C tol max_iter early_tol
        early_max_iter test_size n_jobs verbose random_state w = (w, Raise e)
  | Ok et, Ok em =>
      _logistic_regression X_train y_train standardize C tol max_iter early_tol
        early_max_iter test_size n_jobs verbose random_state w =
      let lr := build_estimator standardize C et em verbose random_state in
      (g <- lift (local (build_grid lr C test_size n_jobs)) ;;
       best_params <- call_GridSearchCV_fit g X_train y_train ;;
       lr <- call_set_params lr best_params ;;
       lr <- call_set_params lr (refit_params tol max_iter) ;;
       c <- call_fit lr X_train y_train ;;
       ret {| params_ := lr; coef_ := c |}) w
  end.
Proof.
  unfold _logistic_regression, bind at 1 2, lift at 1 2.
  destruct (resolve_early_tol tol early_tol) as [et|e]; [|reflexivity].
  destruct (resolve_early_max_iter max_iter early_max_iter) as [em|e]; reflexivity.
Qed.

(** C1 (the code departs from the claim).  When [C] has no [__iter__]
    attribute, [grid_lr] is never assigned: the routine raises without
    having called the library, so it completes no fit, and whenever the
    two tolerance computations succeed the exception is the
    [UnboundLocalError] of reading [grid_lr] at line 122. *)
Theorem scalar_C_reads_unbound_grid_lr (w : world) :
  hasattr_iter C = false ->
  (exists e,
     _logistic_regression X_train y_train standardize C tol max_iter early_tol
       early_max_iter test_size n_jobs verbose random_state w = (w, Raise e)) /\
  (forall et em,
     resolve_early_tol tol early_tol = Ok et ->
     resolve_early_max_iter max_iter early_max_iter = Ok em ->
     _logistic_regression X_train y_train standardize C tol max_iter early_tol
       early_max_iter test_size n_jobs verbose random_state w
     = (w, Raise UnboundLocalError)).
Proof.
  intros HC. pose proof (logistic_regression_prelude w) as H.
  assert (Hg : forall lr, build_grid lr C test_size n_jobs = None)
    by (intros lr; unfold build_grid; rewrite HC; reflexivity).
  destruct (resolve_early_tol tol early_tol) as [et|e].
  - destruct (resolve_early_max_iter max_iter early_max_iter) as [em|e].
    + cbv zeta in H. unfold bind at 1, lift in H. rewrite Hg in H. cbn in H.
      split; [eexists; exact H|].
      intros et' em' _ _. exact H.
    + split; [eexists; exact H|]. intros et' em' _ Hem. discriminate Hem.
  - split; [eexists; exact H|]. intros et' em' Het. discriminate Het.
Qed.

(** The grid search the routine builds when [C] is iterable. *)
Lemma build_grid_iterable (lr : estimator) :
  hasattr_iter C = true ->
  build_grid lr C test_size n_jobs =
  Some {| GridSearchCV.estimator := lr;
          GridSearchCV.param_grid := [("logistic_regression__C", C)];
          GridSearchCV.cv := {| ShuffleSplit.test_size := test_size |};
          GridSearchCV.refit := false;
          GridSearchCV.n_jobs := n_jobs |}.
Proof. intros HC. unfold build_grid. rewrite HC. reflexivity. Qed.

(** The logistic regression of the search-phase estimator carries the
    early tolerance, with or without the scaler in front. *)
Lemma build_estimator_tol (et em : value) :
  option_map LogisticRegression.tol
    (logistic_regression_of (build_estimator standardize C et em verbose random_state))
  = Some et.
Proof. destruct standardize; reflexivity. Qed.

(** For an iterable [C] every run goes through the same calls, each
    made once the one before it has returned: the fit of a grid search
    over [{'logistic_regression__C': C}] with [ShuffleSplit(test_size)]
    splits and [refit=False]; [set_params] with exactly the
    [best_params_] that search found; [set_params] with the final
    tolerance and iteration bound; and one fit of the resulting estimator
    on the full training data.  The routine returns that estimator when
    the last fit returns, and an exception of the library ends the run
    where it is raised. *)
Theorem iterable_C_search_then_one_refit (w : world) (et em : value) :
  hasattr_iter C = true ->
  resolve_early_tol tol early_tol = Ok et ->
  resolve_early_max_iter max_iter early_max_iter = Ok em ->
  let lr := build_estimator standardize C et em verbose random_state in
  let grid_lr :=
    {| GridSearchCV.estimator := lr;
       GridSearchCV.param_grid := [("logistic_regression__C", C)];
       GridSearchCV.cv := {| ShuffleSplit.test_size := test_size |};
       GridSearchCV.refit := false;
       GridSearchCV.n_jobs := n_jobs |} in
  let search := Call_GridSearchCV_fit grid_lr X_train y_train in
  _logistic_regression X_train y_train standardize C tol max_iter early_tol
    early_max_iter test_size n_jobs verbose random_state w
  = match GridSearchCV_fit grid_lr X_train y_train (lib w) with
    | (r1, Raise e) => ({| lib := r1; log := log w ++ [search] |}, Raise e)
    | (r1, Ok best_params) =>
        let apply_best := Call_set_params lr best_params in
        match set_params lr best_params with
        | Raise e =>
            ({| lib := r1; log := log w ++ [search; apply_best] |}, Raise e)
        | Ok lr1 =>
            let tighten := Call_set_params lr1 (refit_params tol max_iter) in
            match set_params lr1 (refit_params tol max_iter) with
            | Raise e =>
                ({| lib := r1; log := log w ++ [search; apply_best; tighten] |},
                 Raise e)
            | Ok lr2 =>
                let calls := [search; apply_best; tighten;
                              Call_fit lr2 X_train y_train] in
                match estimator_fit lr2 X_train y_train r1 with
                | (r2, Raise e) => ({| lib := r2; log := log w ++ calls |}, Raise e)
                | (r2, Ok c) =>
                    ({| lib := r2; log := log w ++ calls |},
                     Ok {| params_ := lr2; coef_ := c |})
                end
            end
        end
    end.
Proof.
  intros HC Het Hem lr grid_lr search.
  pose proof (logistic_regression_prelude w) as H.
  rewrite Het, Hem in H. cbv zeta in H. rewrite H. clear H.
  fold lr. rewrite (build_grid_iterable lr HC). fold grid_lr.
  unfold bind, lift, local, ret, call_GridSearchCV_fit, call_set_params, call_fit.
  cbn [lib log]. fold search.
  destruct (GridSearchCV_fit grid_lr X_train y_train (lib w)) as [r1 [best|e]];
    [|reflexivity].
  cbn [lib log].
  destruct (set_params lr best) as [lr1|e]; [|rewrite <- !app_assoc; reflexivity].
  destruct (set_params lr1 (refit_params tol max_iter)) as [lr2|e];
    [|rewrite <- !app_assoc; reflexivity].
  cbn [lib log].
  destruct (estimator_fit lr2 X_train y_train r1) as [r2 [c|e]];
    rewrite <- !app_assoc; reflexivity.
Qed.

(** The search phase and the refit, for a float [tol] and no
    [early_tol]. *)
Lemma tolerances_of_a_run (w : world) (t : float) (em : value) :
  tol = VFloat t ->
  early_tol = VNone ->
  positive_finite t ->
  hasattr_iter C = true ->
  resolve_early_max_iter max_iter early_max_iter = Ok em ->
  exists (g : GridSearchCV.t) (rest : list event),
    log (fst (_logistic_regression X_train y_train standardize C tol max_iter
                early_tol early_max_iter test_size n_jobs verbose random_state w))
    = (log w ++ Call_GridSearchCV_fit g X_train y_train :: rest)%list /\
    option_map LogisticRegression.tol
      (logistic_regression_of (GridSearchCV.estimator g))
    = Some (VFloat (fmul t f1e2)) /\
    flt t (fmul t f1e2) = true /\
    forall e X y,
      In (Call_fit e X y) rest ->
      exists e0,
        In (Call_set_params e0 [("logistic_regression__tol", VFloat t);
                                ("logistic_regression__max_iter", max_iter)]) rest /\
        set_params e0 [("logistic_regression__tol", VFloat t);
                       ("logistic_regression__max_iter", max_iter)] = Ok e.
Proof.
  intros Htol Hearly Ht HC Hem.
  pose proof (logistic_regression_prelude w) as H.
  assert (Het : resolve_early_tol tol early_tol = Ok (VFloat (fmul t f1e2)))
    by (rewrite Htol, Hearly; reflexivity).
  rewrite Het, Hem in H. cbv zeta in H. rewrite H; clear H.
  set (lr := build_estimator standardize C (VFloat (fmul t f1e2)) em verbose
               random_state).
  rewrite (build_grid_iterable lr HC).
  set (g := {| GridSearchCV.estimator := lr;
               GridSearchCV.param_grid := [("logistic_regression__C", C)];
               GridSearchCV.cv := {| ShuffleSplit.test_size := test_size |};
               GridSearchCV.refit := false;
               GridSearchCV.n_jobs := n_jobs |}).
  exists g.
  assert (Hgt : option_map LogisticRegression.tol
                  (logistic_regression_of (GridSearchCV.estimator g))
                = Some (VFloat (fmul t f1e2)))
    by apply build_estimator_tol.
  pose proof (fmul_1e2_gt t Ht) as Hlt.
  unfold bind, lift, local, ret, call_GridSearchCV_fit, call_set_params, call_fit.
  cbn [lib log].
  destruct (GridSearchCV_fit g X_train y_train (lib w)) as [r1 [best|e1]].
  2:{ exists []. cbn [fst log]. repeat split; try assumption.
      intros e X y []. }
  destruct (set_params lr best) as [lr1|e2].
  2:{ exists [Call_set_params lr best]. cbn [fst log].
      rewrite <- !app_assoc. repeat split; try assumption.
      intros e X y [Hin|[]]; discriminate Hin. }
  rewrite Htol.
  destruct (set_params lr1 (refit_params (VFloat t) max_iter)) as [lr2|e3] eqn:Hset.
  2:{ exists [Call_set_params lr best;
              Call_set_params lr1 (refit_params (VFloat t) max_iter)].
      cbn [fst log]. rewrite <- !app_assoc. repeat split; try assumption.
      intros e X y [Hin|[Hin|[]]]; discriminate Hin. }
  exists [Call_set_params lr best;
          Call_set_params lr1 (refit_params (VFloat t) max_iter);
          Call_fit lr2 X_train y_train].
  assert (Hrest : forall e X y,
            In (Call_fit e X y)
               [Call_set_params lr best;
                Call_set_params lr1 (refit_params (VFloat t) max_iter);
                Call_fit lr2 X_train y_train] ->
            exists e0,
              In (Call_set_params e0 (refit_params (VFloat t) max_iter))
                 [Call_set_params lr best;
                  Call_set_params lr1 (refit_params (VFloat t) max_iter);
                  Call_fit lr2 X_train y_train] /\
              set_params e0 (refit_params (VFloat t) max_iter) = Ok e).
  { intros e X y [Hin|[Hin|[Hin|[]]]]; try discriminate Hin.
    injection Hin as <- _ _. exists lr1. split; [right; left; reflexivity|exact Hset]. }
  cbn [lib log].
  destruct (estimator_fit lr2 X_train y_train r1) as [r2 [c|e4]];
    cbn [fst log]; rewrite <- !app_assoc; repeat split;
    first [assumption | exact Hrest].
Qed.

End LogisticRegressionFacts.

(** C3.  With [early_tol] unset and a positive finite [tol], in every run
    that reaches the search the first library call is the fit of a grid
    search whose logistic regression has tolerance [tol * 1e2]; that
    tolerance is strictly above [tol]; and a final fit, if the run gets
    to one, is of an estimator on which [set_params] has just set
    [logistic_regression__tol] to [tol]. *)
Theorem search_tolerance_looser_than_refit {sk : Sklearn}
  (X_train : array) (y_train : target) (standardize : bool) (C : value) (t : float)
  (max_iter early_max_iter test_size n_jobs verbose random_state : value)
  (w : world) (em : value) :
  positive_finite t ->
  hasattr_iter C = true ->
  resolve_early_max_iter max_iter early_max_iter = Ok em ->
  exists (g : GridSearchCV.t) (rest : list event),
    log (fst (_logistic_regression X_train y_train standardize C (VFloat t) max_iter
                VNone early_max_iter test_size n_jobs verbose random_state w))
    = (log w ++ Call_GridSearchCV_fit g X_train y_train :: rest)%list /\
    option_map LogisticRegression.tol
      (logistic_regression_of (GridSearchCV.estimator g))
    = Some (VFloat (fmul t f1e2)) /\
    flt t (fmul t f1e2) = true /\
    forall e X y,
      In (Call_fit e X y) rest ->
      exists e0,
        In (Call_set_params e0 [("logistic_regression__tol", VFloat t);
                                ("logistic_regression__max_iter", max_iter)]) rest /\
        set_params e0 [("logistic_regression__tol", VFloat t);
                       ("logistic_regression__max_iter", max_iter)] = Ok e.
Proof.
  intros Ht HC Hem.
  exact (tolerances_of_a_run X_train y_train standardize C (VFloat t) max_iter VNone
           early_max_iter test_size n_jobs verbose random_state w t em
           eq_refl eq_refl Ht HC Hem).
Qed.

Section Runs.
Import Reference.

(** The signature's own defaults ([C=1], [tol=1e-7], [max_iter=1000])
    take the routine to the unbound [grid_lr]. *)
Lemma scalar_C_reads_unbound_grid_lr_witness :
  hasattr_iter default_C = false /\
  _logistic_regression X1 [O]
    default_standardize default_C default_tol default_max_iter VNone VNone
    default_test_size default_n_jobs default_verbose VNone w0
  = (w0, Raise UnboundLocalError).
Proof.
  split; [reflexivity|].
  eapply (proj2 (scalar_C_reads_unbound_grid_lr (sk := sklearn)
                   X1 [O] default_standardize default_C default_tol
                   default_max_iter VNone VNone default_test_size default_n_jobs
                   default_verbose VNone w0 eq_refl));
    reflexivity.
Defined.

(** A run of the search path on the stand-in library: a pipeline, two
    candidate strengths, the default tolerances; all four calls are made
    and the refitted pipeline is returned. *)
Lemma iterable_C_search_then_one_refit_witness :
  exists (g : GridSearchCV.t) (lr lr1 lr2 : estimator) (best : kwargs),
    GridSearchCV.param_grid g = [("logistic_regression__C", grid_C)] /\
    GridSearchCV.refit g = false /\
    _logistic_regression X1 [O] true
      grid_C default_tol default_max_iter VNone VNone default_test_size
      default_n_jobs default_verbose VNone w0
    = ({| lib := 2%nat;
          log := [Call_GridSearchCV_fit g X1 [O];
                  Call_set_params lr best;
                  Call_set_params lr1 (refit_params default_tol default_max_iter);
                  Call_fit lr2 X1 [O]] |},
       Ok {| params_ := lr2; coef_ := tt |}).
Proof.
  do 5 eexists. split; [|split].
  3:{ rewrite (iterable_C_search_then_one_refit (sk := sklearn)
                 X1 [O] true grid_C default_tol default_max_iter
                 VNone VNone default_test_size default_n_jobs default_verbose VNone
                 w0 (VFloat (fmul (S754_finite false 7555786372591432 (-76)) f1e2))
                 (VFloat f1e2) eq_refl eq_refl eq_refl).
      reflexivity. }
  all: reflexivity.
Defined.

(** The default tolerance [1e-7]: the search runs at [9.999999999999999e-06]. *)
Lemma search_tolerance_looser_than_refit_witness :
  positive_finite (S754_finite false 7555786372591432 (-76)) /\
  exists (g : GridSearchCV.t) (rest : list event),
    log (fst (_logistic_regression X1 [O] true
                grid_C default_tol default_max_iter VNone VNone
                default_test_size default_n_jobs default_verbose VNone
                w0))
    = Call_GridSearchCV_fit g X1 [O] :: rest /\
    option_map LogisticRegression.tol
      (logistic_regression_of (GridSearchCV.estimator g))
    = Some (VFloat (S754_finite false 5902958103587056 (-69))) /\
    flt (S754_finite false 7555786372591432 (-76))
        (S754_finite false 5902958103587056 (-69)) = true.
Proof.
  split; [reflexivity|].
  destruct (search_tolerance_looser_than_refit (sk := sklearn)
              X1 [O] true grid_C (S754_finite false 7555786372591432 (-76))
              default_max_iter VNone default_test_size default_n_jobs
              default_verbose VNone w0 (VFloat f1e2) eq_refl eq_refl eq_refl)
    as (g & rest & Hlog & Htol & Hlt & _).
  exists g, rest. split; [exact Hlog|]. split; [exact Htol|exact Hlt].
Defined.

End Runs.

(** *** The bare estimator and the step-qualified names *)

Section BareEstimator.
Context {sk : Sklearn}.

(** scikit-learn's convention for parameter names, as far as a bare
    [LogisticRegression] goes: [set_params] keeps it a
    [LogisticRegression], and it has no parameter called
    [logistic_regression] for a name [logistic_regression__tol] to go
    through. *)
Hypothesis set_params_stays_bare :
  forall p kw e,
    set_params (LogisticRegression p) kw = Ok e -> exists p', e = LogisticRegression p'.
Hypothesis set_params_rejects_step_names :
  forall p tol max_iter,
    set_params (LogisticRegression p) (refit_params tol max_iter) = Raise ValueError.

(** Under that convention the routine completes no fit without the
    scaler ([standardize=False], the default): lines 118 and 125 name the
    parameters through the pipeline step in either case. *)
Theorem bare_estimator_never_fitted (X_train : array) (y_train : target)
  (C tol max_iter early_tol early_max_iter test_size n_jobs verbose
   random_state : value) (w : world) :
  exists e,
    snd (_logistic_regression X_train y_train false C tol max_iter early_tol
           early_max_iter test_size n_jobs verbose random_state w)
    = Raise e.
Proof.
  pose proof (logistic_regression_prelude X_train y_train false C tol max_iter
                early_tol early_max_iter test_size n_jobs verbose random_state w) as H.
  destruct (resolve_early_tol tol early_tol) as [et|e];
    [|rewrite H; eexists; reflexivity].
  destruct (resolve_early_max_iter max_iter early_max_iter) as [em|e];
    [|rewrite H; eexists; reflexivity].
  rewrite H. clear H. cbv zeta.
  unfold bind, lift, local, ret, call_GridSearchCV_fit, call_set_params, call_fit.
  destruct (build_grid _ C test_size n_jobs) as [g|]; [|eexists; reflexivity].
  cbn [lib log].
  destruct (GridSearchCV_fit g X_train y_train (lib w)) as [r1 [best|e1]];
    [|eexists; reflexivity].
  cbn [build_estimator].
  destruct (set_params (LogisticRegression _) best) as [lr1|e2] eqn:Hset;
    [|eexists; reflexivity].
  apply set_params_stays_bare in Hset. destruct Hset as [p' ->].
  rewrite set_params_rejects_step_names. eexists; reflexivity.
Qed.

End BareEstimator.

Section BareEstimatorRuns.
Import Reference.

Lemma reference_set_params_stays_bare (p : LogisticRegression.t) (kw : kwargs)
  (e : estimator) :
  Reference.set_params (LogisticRegression p) kw = Ok e ->
  exists p', e = LogisticRegression p'.
Proof.
  revert p. induction kw as [|[key v] kw IH]; intros p; cbn [Reference.set_params].
  - intros [= <-]. exists p. reflexivity.
  - unfold obind at 1. cbn [set_param].
    destruct (split_nested key); [discriminate|].
    unfold obind at 1. destruct (set_field p key v) as [p1|]; [|discriminate].
    apply IH.
Qed.

(** The stand-in library follows the convention; with the default
    arguments and a list of candidates the search itself is refused. *)
Lemma bare_estimator_never_fitted_witness :
  snd (_logistic_regression X1 [O] default_standardize grid_C default_tol
         default_max_iter VNone VNone default_test_size default_n_jobs
         default_verbose VNone w0)
  = Raise ValueError /\
  exists e,
    snd (_logistic_regression X1 [O] false grid_C default_tol default_max_iter
           VNone VNone default_test_size default_n_jobs default_verbose VNone w0)
    = Raise e.
Proof.
  split; [reflexivity|].
  exact (bare_estimator_never_fitted (sk := sklearn)
           reference_set_params_stays_bare (fun _ _ _ => eq_refl)
           X1 [O] grid_C default_tol default_max_iter VNone VNone
           default_test_size default_n_jobs default_verbose VNone w0).
Defined.

End BareEstimatorRuns.

(** *** The search path without the scaler *)

Section SearchWithoutScaler.
Context {sk : Sklearn}.

(** scikit-learn's convention for parameter names on a bare
    [LogisticRegression], as above. *)
Hypothesis bare_stays_bare :
  forall p kw e,
    set_params (LogisticRegression p) kw = Ok e -> exists p', e = LogisticRegression p'.
Hypothesis bare_rejects_step_names :
  forall p tol max_iter,
    set_params (LogisticRegression p) (refit_params tol max_iter) = Raise ValueError.

(** C4 (the code departs from the claim).  For an iterable [C] the
    routine does build the grid search over [C] with [ShuffleSplit] and
    [refit=False] and fits it first.  But lines 118 and 125 name the
    parameters through the pipeline step [logistic_regression__], and the
    pipeline is built only under [standardize] (line 113): with
    [standardize=False], the default, the run ends in an exception and
    makes no final fit, whatever the search selects. *)
Theorem iterable_C_without_scaler_makes_no_final_fit (X_train : array)
  (y_train : target) (C tol max_iter early_tol early_max_iter test_size n_jobs
   verbose random_state : value) (w : world) (et em : value) :
  hasattr_iter C = true ->
  resolve_early_tol tol early_tol = Ok et ->
  resolve_early_max_iter max_iter early_max_iter = Ok em ->
  let run := _logistic_regression X_train y_train false C tol max_iter early_tol
               early_max_iter test_size n_jobs verbose random_state w in
  exists (g : GridSearchCV.t) (rest : list event),
    log (fst run) = (log w ++ Call_GridSearchCV_fit g X_train y_train :: rest)%list /\
    GridSearchCV.param_grid g = [("logistic_regression__C", C)] /\
    GridSearchCV.cv g = {| ShuffleSplit.test_size := test_size |} /\
    GridSearchCV.refit g = false /\
    (forall e X y, ~ In (Call_fit e X y) rest) /\
    exists e, snd run = Raise e.
Proof.
  intros HC Het Hem. cbv zeta.
  rewrite (iterable_C_search_then_one_refit X_train y_train false C tol max_iter
             early_tol early_max_iter test_size n_jobs verbose random_state w et em
             HC Het Hem).
  cbv zeta. cbn [build_estimator].
  match goal with
  | |- context [GridSearchCV_fit ?g X_train y_train (lib w)] =>
      destruct (GridSearchCV_fit g X_train y_train (lib w)) as [r1 [best|e1]]
  end.
  - destruct (set_params (LogisticRegression _) best) as [lr1|e2] eqn:Hset.
    + apply bare_stays_bare in Hset. destruct Hset as [p' ->].
      rewrite bare_rejects_step_names.
      eexists _, _. split; [cbn [fst log]; reflexivity|].
      repeat (split; [reflexivity|]).
      split; [|eexists; reflexivity].
      intros e X y [H|[H|[]]]; discriminate H.
    + eexists _, _. split; [cbn [fst log]; reflexivity|].
      repeat (split; [reflexivity|]).
      split; [|eexists; reflexivity].
      intros e X y [H|[]]; discriminate H.
  - eexists _, _. split; [cbn [fst log]; reflexivity|].
    repeat (split; [reflexivity|]).
    split; [|eexists; reflexivity].
    intros e X y [].
Qed.

End SearchWithoutScaler.

Section SearchWithoutScalerRuns.
Import Reference.

(** Two candidate strengths and the signature's defaults: the search,
    the only call made, is refused. *)
Lemma iterable_C_without_scaler_makes_no_final_fit_witness :
  hasattr_iter grid_C = true /\
  snd (_logistic_regression X1 [O] default_standardize grid_C default_tol
         default_max_iter VNone VNone default_test_size default_n_jobs
         default_verbose VNone w0)
  = Raise ValueError /\
  exists (g : GridSearchCV.t) (rest : list event),
    log (fst (_logistic_regression X1 [O] false grid_C default_tol default_max_iter
                VNone VNone default_test_size default_n_jobs default_verbose VNone
                w0))
    = Call_GridSearchCV_fit g X1 [O] :: rest /\
    GridSearchCV.param_grid g = [("logistic_regression__C", grid_C)] /\
    GridSearchCV.cv g = {| ShuffleSplit.test_size := default_test_size |} /\
    GridSearchCV.refit g = false /\
    (forall e X y, ~ In (Call_fit e X y) rest) /\
    exists e,
      snd (_logistic_regression X1 [O] false grid_C default_tol default_max_iter
             VNone VNone default_test_size default_n_jobs default_verbose VNone w0)
      = Raise e.
Proof.
  split; [reflexivity|]. split; [reflexivity|].
  exact (iterable_C_without_scaler_makes_no_final_fit (sk := sklearn)
           reference_set_params_stays_bare (fun _ _ _ => eq_refl)
           X1 [O] grid_C default_tol default_max_iter VNone VNone
           default_test_size default_n_jobs default_verbose VNone w0
           (VFloat (fmul (S754_finite false 7555786372591432 (-76)) f1e2))
           (VFloat f1e2) eq_refl eq_refl eq_refl).
Defined.

End SearchWithoutScalerRuns.

(* ================================================================= *)
(** ** [fMRITaskClassifier] *)

Section ClassifierFacts.
Context {sk : Sklearn} {Imgs Confounds : Type}.

Local Abbreviation classifier := (fMRITaskClassifier.t (Imgs := Imgs) (Confounds := Confounds)).

(** C10.  [__init__] stores [max_iter] inside a one-element tuple and
    every other argument as it was given; the [max_iter] that [fit]
    forwards to [_logistic_regression] is therefore that tuple. *)
Theorem init_stores_max_iter_in_a_tuple
  (transformer : transformer_object Imgs Confounds array) (C : value)
  (standardize : bool) (max_iter tol random_state n_jobs : value)
  (memory : Memory) (memory_level : value) :
  let self : classifier :=
    fMRITaskClassifier.__init__ transformer C standardize max_iter tol
      random_state n_jobs memory memory_level in
  fMRITaskClassifier.max_iter self = VTuple [max_iter] /\
  (fMRITaskClassifier.transformer self = transformer /\
   fMRITaskClassifier.C self = C /\
   fMRITaskClassifier.standardize self = standardize /\
   fMRITaskClassifier.tol self = tol /\
   fMRITaskClassifier.random_state self = random_state /\
   fMRITaskClassifier.n_jobs self = n_jobs /\
   fMRITaskClassifier.memory self = memory /\
   fMRITaskClassifier.memory_level self = memory_level) /\
  (forall (X : array) (y : target),
     fMRITaskClassifier.fit_call self X y =
     _logistic_regression X y standardize C tol (VTuple [max_iter]) VNone VNone
       default_test_size n_jobs default_verbose random_state).
Proof. cbv zeta. repeat split. Qed.

(** What the tuple does there: [max_iter / 10] at line 106 is a
    [TypeError], so the call [fit] makes on a freshly constructed
    classifier raises before it reaches the library. *)
Lemma fit_call_after_init_raises
  (transformer : transformer_object Imgs Confounds array) (C : value)
  (standardize : bool) (max_iter tol random_state n_jobs : value)
  (memory : Memory) (memory_level : value) (X : array) (y : target) (w : world) :
  fMRITaskClassifier.fit_call
    (fMRITaskClassifier.__init__ transformer C standardize max_iter tol
       random_state n_jobs memory memory_level : classifier) X y w
  = (w, Raise match resolve_early_tol tol VNone with
              | Ok _ => TypeError
              | Raise e => e
              end).
Proof.
  unfold fMRITaskClassifier.fit_call, fMRITaskClassifier._cache.
  cbn [fMRITaskClassifier.__init__ fMRITaskClassifier.standardize
       fMRITaskClassifier.C fMRITaskClassifier.tol fMRITaskClassifier.max_iter
       fMRITaskClassifier.n_jobs fMRITaskClassifier.random_state].
  pose proof (logistic_regression_prelude X y standardize C tol (VTuple [max_iter])
                VNone VNone default_test_size n_jobs default_verbose random_state w)
    as H.
  cbn [resolve_early_max_iter is_None truediv_int] in H.
  destruct (resolve_early_tol tol VNone); exact H.
Qed.

(** Hence [fit] completes on no classifier in the state [__init__] leaves
    it in, whatever the transformer and the library do. *)
Theorem fit_after_init_never_completes
  (transformer : transformer_object Imgs Confounds array) (C : value)
  (standardize : bool) (max_iter tol random_state n_jobs : value)
  (memory : Memory) (memory_level : value)
  (imgs : Imgs) (y : labels) (confounds : option Confounds) (w : world) :
  exists e,
    snd (fMRITaskClassifier.fit imgs y confounds
           (fMRITaskClassifier.__init__ transformer C standardize max_iter tol
              random_state n_jobs memory memory_level : classifier, w))
    = Raise e.
Proof.
  unfold fMRITaskClassifier.fit, fMRITaskClassifier.assign,
    fMRITaskClassifier.in_world, bind, get, lift, modify.
  cbn [fst snd].
  destruct (getattr (attr_transform _)) as [transform|e]; [|eexists; reflexivity].
  destruct (transform imgs confounds) as [X|e]; [|eexists; reflexivity].
  destruct (LabelEncoder_fit_transform y) as [cy|e]; [|eexists; reflexivity].
  cbn [fst snd].
  change (fMRITaskClassifier.set_le_ (Some (fst cy))
            (fMRITaskClassifier.set_le_ None
               (fMRITaskClassifier.__init__ transformer C standardize max_iter tol
                  random_state n_jobs memory memory_level)))
    with (fMRITaskClassifier.set_le_ (Some (fst cy))
            (fMRITaskClassifier.__init__ transformer C standardize max_iter tol
               random_state n_jobs memory memory_level : classifier)).
  assert (H : forall le : LabelEncoder,
            fMRITaskClassifier.fit_call
              (fMRITaskClassifier.set_le_ le
                 (fMRITaskClassifier.__init__ transformer C standardize max_iter tol
                    random_state n_jobs memory memory_level : classifier))
              X (snd cy) w
            = fMRITaskClassifier.fit_call
                (fMRITaskClassifier.__init__ transformer C standardize max_iter tol
                   random_state n_jobs memory memory_level : classifier)
                X (snd cy) w) by reflexivity.
  rewrite H, fit_call_after_init_raises. eexists; reflexivity.
Qed.

(** [fit] assigns [le_] and [lr_] only. *)
Lemma fit_keeps_transformer (imgs : Imgs) (y : labels) (confounds : option Confounds)
  (s s' : classifier * world) (o : outcome unit) :
  fMRITaskClassifier.fit imgs y confounds s = (s', o) ->
  fMRITaskClassifier.transformer (fst s') = fMRITaskClassifier.transformer (fst s).
Proof.
  unfold fMRITaskClassifier.fit, fMRITaskClassifier.assign,
    fMRITaskClassifier.in_world, bind, get, lift, modify.
  destruct (getattr (attr_transform (fMRITaskClassifier.transformer (fst s))))
    as [transform|e]; [|intros [= <- _]; reflexivity].
  destruct (transform imgs confounds) as [X|e]; [|intros [= <- _]; reflexivity].
  destruct (LabelEncoder_fit_transform y) as [cy|e]; [|intros [= <- _]; reflexivity].
  cbn [fst snd].
  destruct (fMRITaskClassifier.fit_call _ X (snd cy) (snd s)) as [w' [lr|e]];
    intros [= <- _]; reflexivity.
Qed.

(** C2 (the code departs from the claim).  [predict] does not apply the
    transformer's [transform]: line 85 calls the transformer object
    itself.  On a classifier whose [fit] has completed and whose
    transformer defines no [__call__], [predict] raises [TypeError] and
    returns no labels. *)
Theorem predict_calls_the_transformer_object (imgs imgs' : Imgs) (y : labels)
  (confounds confounds' : option Confounds) (s s' : classifier * world) :
  fMRITaskClassifier.fit imgs y confounds s = (s', Ok tt) ->
  attr_call (fMRITaskClassifier.transformer (fst s)) = None ->
  fMRITaskClassifier.predict imgs' confounds' s' = (s', Raise TypeError).
Proof.
  intros Hfit Hcall.
  apply fit_keeps_transformer in Hfit.
  unfold fMRITaskClassifier.predict, bind, get, lift.
  rewrite Hfit, Hcall. reflexivity.
Qed.

(** What line 85 does compute with a callable transformer: the labels of
    the claim, from [__call__] in place of [transform]. *)
Lemma predict_with_callable_transformer (imgs : Imgs) (confounds : option Confounds)
  (s : classifier * world) (call : Imgs -> option Confounds -> outcome array)
  (X : array) (lr : fitted) (y : target) (le : LabelEncoder) :
  attr_call (fMRITaskClassifier.transformer (fst s)) = Some call ->
  call imgs confounds = Ok X ->
  fMRITaskClassifier.lr_ (fst s) = Some lr ->
  estimator_predict (params_ lr) (coef_ lr) X = Ok y ->
  fMRITaskClassifier.le_ (fst s) = Some le ->
  fMRITaskClassifier.predict imgs confounds s
  = (s, LabelEncoder_inverse_transform le y).
Proof.
  intros Hcall HX Hlr Hy Hle.
  unfold fMRITaskClassifier.predict, bind, get, lift.
  rewrite Hcall. cbn [callable]. rewrite HX, Hlr. cbn [getattr].
  rewrite Hy, Hle. cbn [getattr].
  destruct (LabelEncoder_inverse_transform le y); reflexivity.
Qed.

(** C5.  While [lr_] has not been assigned, [predict] raises: a
    [TypeError] when the transformer is not callable, the transformer's
    own exception when its call raises, and otherwise the
    [AttributeError] of reading [self.lr_].  The object is left as it
    was. *)
Theorem predict_before_fit_raises (imgs : Imgs) (confounds : option Confounds)
  (s : classifier * world) :
  fMRITaskClassifier.lr_ (fst s) = None ->
  exists e, fMRITaskClassifier.predict imgs confounds s = (s, Raise e).
Proof.
  intros Hlr. unfold fMRITaskClassifier.predict, bind, get, lift.
  destruct (attr_call (fMRITaskClassifier.transformer (fst s))) as [call|];
    cbn [callable]; [|eexists; reflexivity].
  destruct (call imgs confounds) as [X|e]; [|eexists; reflexivity].
  rewrite Hlr. eexists; reflexivity.
Qed.

End ClassifierFacts.

Section ClassifierRuns.
Import Reference.

(** [fit] completes on the stand-in library once [max_iter] is an
    integer; [predict] on the fitted classifier raises [TypeError]. *)
Lemma predict_calls_the_transformer_object_witness :
  let s' := fst (fMRITaskClassifier.fit (Mat X1) ["a"] None (classifier, w0)) in
  snd (fMRITaskClassifier.fit (Mat X1) ["a"] None (classifier, w0)) = Ok tt /\
  fMRITaskClassifier.predict (Mat X1) None s' = (s', Raise TypeError).
Proof.
  assert (Hfit : snd (fMRITaskClassifier.fit (Mat X1) ["a"] None (classifier, w0))
                 = Ok tt) by (vm_compute; reflexivity).
  split; [exact Hfit|].
  apply (predict_calls_the_transformer_object (sk := sklearn) (Mat X1) (Mat X1)
           ["a"] None None (classifier, w0)); [|reflexivity].
  rewrite <- Hfit. apply surjective_pairing.
Defined.

(** A classifier straight from [__init__]. *)
Lemma predict_before_fit_raises_witness :
  fMRITaskClassifier.lr_ fresh_classifier = None /\
  exists e,
    fMRITaskClassifier.predict (Mat X1) None (fresh_classifier, w0)
    = ((fresh_classifier, w0), Raise e).
Proof.
  split; [reflexivity|].
  exact (predict_before_fit_raises (sk := sklearn) (Mat X1) None
           (fresh_classifier, w0) eq_refl).
Defined.

End ClassifierRuns.

(* ================================================================= *)
(** ** [MultiProjectionTransformer] *)

Section ProjectionFacts.
Context {F : Type} {np : Numpy F}.

(** C9.  [__init__] assigns [bases] and [identity] only; [fit] first reads
    [self.basis], which nothing has assigned, and raises
    [AttributeError] on every input, before [n_loadings_] is computed:
    the object is left as [__init__] made it. *)
Theorem fit_reads_unassigned_basis (bases X y : object F) (identity : bool) :
  MultiProjectionTransformer.fit X y
    (MultiProjectionTransformer.__init__ bases identity)
  = (MultiProjectionTransformer.__init__ bases identity, Raise AttributeError)
  /\ MultiProjectionTransformer.n_loadings_
       (fst (MultiProjectionTransformer.fit X y
               (MultiProjectionTransformer.__init__ bases identity))) = None.
Proof. split; reflexivity. Qed.

(** *** Arrays built by [tabulate] *)

Lemma cell_tabulate (r c : nat) (f : nat -> nat -> F) (i j : nat) :
  (i < r)%nat -> (j < c)%nat -> cell (tabulate r c f) i j = f i j.
Proof.
  intros Hi Hj. unfold cell, tabulate. cbn [cells].
  rewrite (nth_indep _ [] (map (f 0%nat) (seq 0 c)))
    by (rewrite length_map, length_seq; exact Hi).
  rewrite (map_nth (fun i => map (f i) (seq 0 c)) (seq 0 r) 0%nat i).
  rewrite seq_nth by exact Hi. cbn [Nat.add].
  rewrite (nth_indep _ F0 (f i 0%nat))
    by (rewrite length_map, length_seq; exact Hj).
  rewrite (map_nth (f i) (seq 0 c) 0%nat j).
  rewrite seq_nth by exact Hj. reflexivity.
Qed.

Lemma tabulate_ext (r c : nat) (f g : nat -> nat -> F) :
  (forall i j, (i < r)%nat -> (j < c)%nat -> f i j = g i j) ->
  tabulate r c f = tabulate r c g.
Proof.
  intros H. unfold tabulate. f_equal.
  apply map_ext_in. intros i Hi. apply in_seq in Hi.
  apply map_ext_in. intros j Hj. apply in_seq in Hj.
  apply H; lia.
Qed.

Lemma agree_all (k : nat) (L1 L2 : matrix F) :
  agree k L1 L2 -> (ncols L1 <= k)%nat -> L1 = L2.
Proof.
  intros (r & c & f1 & f2 & -> & -> & H) Hk. cbn [ncols tabulate] in Hk.
  apply tabulate_ext. intros i j Hi Hj. apply H; lia.
Qed.

Lemma agree_shape (k : nat) (L1 L2 : matrix F) :
  agree k L1 L2 -> nrows L1 = nrows L2 /\ ncols L1 = ncols L2.
Proof. intros (r & c & f1 & f2 & -> & -> & _). split; reflexivity. Qed.

(** A slice assignment that starts inside the columns already agreed on
    fails on both arrays or extends the agreement to its end. *)
Lemma setitem_cols_agree (k lo hi : nat) (v : ndarray F) (L1 L2 : matrix F) :
  agree k L1 L2 -> (lo <= k)%nat ->
  match setitem_cols L1 lo hi v, setitem_cols L2 lo hi v with
  | Ok L1', Ok L2' => agree (Nat.max k hi) L1' L2'
  | Raise e1, Raise e2 => e1 = e2
  | _, _ => False
  end.
Proof.
  intros (r & c & f1 & f2 & -> & -> & H) Hlo.
  unfold setitem_cols. cbn [nrows ncols tabulate].
  destruct (broadcast v r _) as [f|]; [|reflexivity].
  eexists r, c, _, _. split; [reflexivity|]. split; [reflexivity|].
  intros i j Hi Hj Hc. cbn beta.
  destruct ((Nat.min lo c <=? j)%nat && (j <? Nat.max (Nat.min lo c) (Nat.min hi c))%nat)
    eqn:Hin; [reflexivity|].
  rewrite !cell_tabulate by assumption.
  apply H; try assumption.
  apply andb_false_iff in Hin.
  destruct Hin as [Hin|Hin];
    [apply Nat.leb_gt in Hin|apply Nat.ltb_ge in Hin]; lia.
Qed.

Lemma setitem_cols_ncols (L L' : matrix F) (lo hi : nat) (v : ndarray F) :
  setitem_cols L lo hi v = Ok L' -> ncols L' = ncols L.
Proof.
  unfold setitem_cols. destruct (broadcast v _ _); [|discriminate].
  intros [= <-]. reflexivity.
Qed.

Lemma mapM_length {A B : Type} (f : A -> outcome B) (l : list A) (bs : list B) :
  mapM f l = Ok bs -> List.length bs = List.length l.
Proof.
  revert bs. induction l as [|a l IH]; intros bs; cbn [mapM].
  - intros [= <-]. reflexivity.
  - destruct (f a) as [b|e]; [|discriminate].
    destruct (mapM f l) as [bs'|e]; [|discriminate].
    intros [= <-]. cbn [List.length]. f_equal. apply IH. reflexivity.
Qed.

(** *** The loop over the bases *)

(** The loop keeps the width of [loadings]. *)
Lemma project_ncols (items : list (object F)) (X : ndarray F) (L L' : matrix F)
  (off o : nat) :
  MultiProjectionTransformer.project items X L off = Ok (L', o) ->
  ncols L' = ncols L.
Proof.
  revert L off. induction items as [|basis items IH]; intros L off;
    cbn [MultiProjectionTransformer.project].
  - intros [= <- _]. reflexivity.
  - unfold obind.
    destruct (MultiProjectionTransformer.shape_at 0 basis) as [len|e]; [|discriminate].
    destruct (T_of basis) as [bT|e]; [|discriminate].
    destruct (linalg_solve bT (T X)) as [rhs|e]; [|discriminate].
    destruct (setitem_cols L off (off + len) rhs) as [L1|e] eqn:Hset; [|discriminate].
    intros H. apply IH in H. rewrite H. eapply setitem_cols_ncols; exact Hset.
Qed.

(** Run on two arrays that agree up to [offset], the loop fails the same
    way on both or ends at the same offset, the sum of the bases' row
    counts further on, with arrays that agree up to it. *)
Lemma project_agree (items : list (object F)) (X : ndarray F) (L1 L2 : matrix F)
  (off : nat) :
  agree off L1 L2 ->
  match MultiProjectionTransformer.project items X L1 off,
        MultiProjectionTransformer.project items X L2 off with
  | Ok (L1', o1), Ok (L2', o2) =>
      o1 = o2 /\ agree o1 L1' L2' /\
      exists rows,
        mapM (MultiProjectionTransformer.shape_at 0) items = Ok rows /\
        o1 = (off + list_sum rows)%nat
  | Raise e1, Raise e2 => e1 = e2
  | _, _ => False
  end.
Proof.
  revert L1 L2 off. induction items as [|basis items IH]; intros L1 L2 off Hag;
    cbn [MultiProjectionTransformer.project mapM].
  - split; [reflexivity|]. split; [assumption|].
    exists []. split; [reflexivity|]. cbn [list_sum fold_right]. lia.
  - unfold obind.
    destruct (MultiProjectionTransformer.shape_at 0 basis) as [len|e]; [|reflexivity].
    destruct (T_of basis) as [bT|e]; [|reflexivity].
    destruct (linalg_solve bT (T X)) as [rhs|e]; [|reflexivity].
    pose proof (setitem_cols_agree off off (off + len) rhs L1 L2 Hag (Nat.le_refl _))
      as Hset.
    destruct (setitem_cols L1 off (off + len) rhs) as [L1'|e1];
      destruct (setitem_cols L2 off (off + len) rhs) as [L2'|e2];
      try contradiction; [|assumption].
    replace (Nat.max off (off + len)) with (off + len)%nat in Hset by lia.
    specialize (IH L1' L2' (off + len)%nat Hset).
    destruct (MultiProjectionTransformer.project items X L1' (off + len))
      as [[L1'' o1]|e1];
      destruct (MultiProjectionTransformer.project items X L2' (off + len))
        as [[L2'' o2]|e2];
      try contradiction; [|assumption].
    destruct IH as (Ho & Hag' & rows & Hrows & Hsum).
    split; [assumption|]. split; [assumption|].
    exists (len :: rows). rewrite Hrows. split; [reflexivity|].
    change (list_sum (len :: rows)) with (len + list_sum rows)%nat. lia.
Qed.

(** *** What [transform] reads and what it overwrites *)

Lemma transform_reads (t1 t2 : MultiProjectionTransformer.t)
  (uninit : nat -> nat -> F) (X : ndarray F) (y1 c1 y2 c2 : object F) :
  MultiProjectionTransformer.n_loadings_ t1 = MultiProjectionTransformer.n_loadings_ t2 ->
  MultiProjectionTransformer.bases t1 = MultiProjectionTransformer.bases t2 ->
  MultiProjectionTransformer.identity t1 = MultiProjectionTransformer.identity t2 ->
  MultiProjectionTransformer.transform t1 uninit X y1 c1
  = MultiProjectionTransformer.transform t2 uninit X y2 c2.
Proof.
  intros Hn Hb Hi. unfold MultiProjectionTransformer.transform.
  rewrite Hn, Hb, Hi. reflexivity.
Qed.

(** The memory [np.empty] hands out does not show in the result when the
    identity block is written, or when the bases' rows cover every
    column. *)
Lemma transform_overwrites_uninit (self : MultiProjectionTransformer.t)
  (u1 u2 : nat -> nat -> F) (X : ndarray F) (y c : object F) :
  (MultiProjectionTransformer.identity self = true \/
   forall z items rows,
     MultiProjectionTransformer.n_loadings_ self = Some (np_int64 z) ->
     iterate (MultiProjectionTransformer.bases self) = Ok items ->
     mapM (MultiProjectionTransformer.shape_at 0) items = Ok rows ->
     z <= Z.of_nat (list_sum rows)) ->
  MultiProjectionTransformer.transform self u1 X y c
  = MultiProjectionTransformer.transform self u2 X y c.
Proof.
  intros Hcover. unfold MultiProjectionTransformer.transform, obind.
  destruct (MultiProjectionTransformer.n_loadings_ self) as [[z|x]|] eqn:Hn;
    cbn [getattr np_empty]; try reflexivity.
  destruct (z <? 0) eqn:Hz; [reflexivity|]. apply Z.ltb_ge in Hz.
  destruct (iterate (MultiProjectionTransformer.bases self)) as [items|e] eqn:Hit;
    [|reflexivity].
  assert (Hag : agree 0 (tabulate (shape0 X) (Z.to_nat z) u1)
                        (tabulate (shape0 X) (Z.to_nat z) u2)).
  { eexists _, _, _, _. split; [reflexivity|]. split; [reflexivity|]. intros; lia. }
  pose proof (project_agree items X _ _ 0%nat Hag) as Hp.
  destruct (MultiProjectionTransformer.project items X
              (tabulate (shape0 X) (Z.to_nat z) u1) 0) as [[L1 o1]|e1] eqn:Hp1;
    destruct (MultiProjectionTransformer.project items X
                (tabulate (shape0 X) (Z.to_nat z) u2) 0) as [[L2 o2]|e2] eqn:Hp2;
    try contradiction; [|congruence].
  destruct Hp as (<- & Hag' & rows & Hrows & Hsum). cbn [fst snd].
  destruct (agree_shape _ _ _ Hag') as [_ Hc].
  destruct (MultiProjectionTransformer.identity self) eqn:Hid.
  - pose proof (setitem_cols_agree o1 o1 (ncols L1) X L1 L2 Hag' (Nat.le_refl _))
      as Hset.
    rewrite <- Hc.
    destruct (setitem_cols L1 o1 (ncols L1) X) as [L1'|e1] eqn:Hs1;
      destruct (setitem_cols L2 o1 (ncols L1) X) as [L2'|e2];
      try contradiction; [|congruence].
    f_equal. apply (agree_all _ _ _ Hset).
    rewrite (setitem_cols_ncols _ _ _ _ _ Hs1). lia.
  - f_equal. apply (agree_all _ _ _ Hag').
    rewrite (project_ncols _ _ _ _ _ _ Hp1). cbn [ncols tabulate].
    destruct Hcover as [Hcover|Hcover]; [discriminate|].
    specialize (Hcover z items rows eq_refl eq_refl Hrows). lia.
Qed.

(** *** What a completed [fit] leaves *)

Lemma fold_left_add_of_nat (l : list nat) (a : Z) :
  fold_left Z.add (map Z.of_nat l) a = a + Z.of_nat (list_sum l).
Proof.
  revert a. induction l as [|n l IH]; intros a; cbn [map fold_left].
  - cbn. lia.
  - rewrite IH. change (list_sum (n :: l)) with (n + list_sum l)%nat. lia.
Qed.

Lemma wrap64_le (z : Z) : 0 <= z -> wrap64 z <= z.
Proof.
  intros Hz. unfold wrap64.
  pose proof (Z.mod_le (z + 2 ^ 63) (2 ^ 64) ltac:(lia) ltac:(lia)). lia.
Qed.

Lemma np_sum_nonempty (rows : list nat) :
  rows <> [] -> np_sum rows = np_int64 (wrap64 (Z.of_nat (list_sum rows))).
Proof.
  destruct rows as [|n rows]; [congruence|]. intros _. unfold np_sum.
  rewrite fold_left_add_of_nat. reflexivity.
Qed.

Lemma fitted_n_loadings_unique (t1 t2 : MultiProjectionTransformer.t)
  (v1 v2 : np_number) :
  MultiProjectionTransformer.bases t1 = MultiProjectionTransformer.bases t2 ->
  MultiProjectionTransformer.identity t1 = MultiProjectionTransformer.identity t2 ->
  fitted_n_loadings t1 v1 -> fitted_n_loadings t2 v2 -> v1 = v2.
Proof.
  intros Hb Hi (items1 & rows1 & cols1 & first1 & Hit1 & Hr1 & Hc1 & Hf1 & ->)
               (items2 & rows2 & cols2 & first2 & Hit2 & Hr2 & Hc2 & Hf2 & ->).
  rewrite Hb, Hit2 in Hit1. injection Hit1 as <-.
  rewrite Hr2 in Hr1. injection Hr1 as <-.
  rewrite Hc2 in Hc1. injection Hc1 as <-.
  rewrite Hf2 in Hf1. injection Hf1 as <-.
  rewrite Hi. reflexivity.
Qed.

Lemma fit_completed (X y : object F) (s t r : MultiProjectionTransformer.t) :
  MultiProjectionTransformer.fit X y s = (t, Ok r) ->
  MultiProjectionTransformer.bases t = MultiProjectionTransformer.bases s /\
  MultiProjectionTransformer.identity t = MultiProjectionTransformer.identity s /\
  exists v, MultiProjectionTransformer.n_loadings_ t = Some v /\ fitted_n_loadings s v.
Proof.
  unfold MultiProjectionTransformer.fit, bind, get, lift, modify, ret, raise.
  intros H. repeat case_scrutinee H.
  all: injection H as <- _.
  all: cbn [MultiProjectionTransformer.bases MultiProjectionTransformer.identity
            MultiProjectionTransformer.n_loadings_
            MultiProjectionTransformer.set_n_loadings_
            MultiProjectionTransformer.set_basis getattr] in *.
  all: repeat match goal with E : Ok _ = Ok _ |- _ => injection E as <- end.
  all: split; [reflexivity|]; split; [first [reflexivity|assumption]|].
  all: eexists; split; [reflexivity|].
  all: unfold fitted_n_loadings; do 4 eexists; repeat split; try eassumption.
  all: match goal with Hid : MultiProjectionTransformer.identity _ = _ |- _ =>
         rewrite Hid; reflexivity
       end.
Qed.

(** After a completed [fit] the bases' rows cover every column that the
    identity block does not. *)
Lemma fitted_covers (self : MultiProjectionTransformer.t) (v : np_number) :
  fitted_n_loadings self v ->
  MultiProjectionTransformer.identity self = true \/
  forall z items rows,
    v = np_int64 z ->
    iterate (MultiProjectionTransformer.bases self) = Ok items ->
    mapM (MultiProjectionTransformer.shape_at 0) items = Ok rows ->
    z <= Z.of_nat (list_sum rows).
Proof.
  intros (items & rows & cols & first & Hit & Hr & Hc & Hf & ->).
  destruct (MultiProjectionTransformer.identity self); [left; reflexivity|right].
  intros z items' rows' Hz Hit' Hr'.
  rewrite Hit in Hit'. injection Hit' as <-.
  rewrite Hr in Hr'. injection Hr' as <-.
  assert (Hne : rows <> []).
  { intros ->. apply mapM_length in Hr. apply mapM_length in Hc.
    destruct cols as [|n cols]; [discriminate Hf|].
    cbn [List.length] in *. lia. }
  rewrite (np_sum_nonempty rows Hne) in Hz. injection Hz as <-.
  apply wrap64_le. lia.
Qed.

(** C6.  Two transformers that [fit] has completed on, with the same
    bases and the same identity flag, give the same loadings for the same
    samples, whatever the memory [np.empty] handed to each call held: the
    result is the same array, or the same exception. *)
Theorem transform_is_deterministic (s1 s2 t1 t2 r1 r2 : MultiProjectionTransformer.t)
  (Xf1 yf1 Xf2 yf2 : object F) (u1 u2 : nat -> nat -> F) (X : ndarray F)
  (y1 c1 y2 c2 : object F) :
  MultiProjectionTransformer.fit Xf1 yf1 s1 = (t1, Ok r1) ->
  MultiProjectionTransformer.fit Xf2 yf2 s2 = (t2, Ok r2) ->
  MultiProjectionTransformer.bases t1 = MultiProjectionTransformer.bases t2 ->
  MultiProjectionTransformer.identity t1 = MultiProjectionTransformer.identity t2 ->
  MultiProjectionTransformer.transform t1 u1 X y1 c1
  = MultiProjectionTransformer.transform t2 u2 X y2 c2.
Proof.
  intros Hfit1 Hfit2 Hb Hi.
  apply fit_completed in Hfit1. destruct Hfit1 as (Hb1 & Hi1 & v1 & Hn1 & Hv1).
  apply fit_completed in Hfit2. destruct Hfit2 as (Hb2 & Hi2 & v2 & Hn2 & Hv2).
  assert (Hv1' : fitted_n_loadings t1 v1)
    by (unfold fitted_n_loadings in *; rewrite Hb1, Hi1; exact Hv1).
  assert (Hv2' : fitted_n_loadings t2 v2)
    by (unfold fitted_n_loadings in *; rewrite Hb2, Hi2; exact Hv2).
  assert (Hv : v1 = v2) by (eapply fitted_n_loadings_unique; eassumption).
  transitivity (MultiProjectionTransformer.transform t1 u2 X y1 c1).
  - apply transform_overwrites_uninit.
    destruct (fitted_covers t1 v1 Hv1') as [Hid|Hcov]; [left; exact Hid|right].
    intros z items rows Hz. apply Hcov. congruence.
  - apply transform_reads; congruence.
Qed.

End ProjectionFacts.

Section ProjectionRuns.
Import Reference.

(** One 1x1 basis and the identity block, a sample [[1.0]], and two
    different fillings of the fresh array. *)
Lemma transform_is_deterministic_witness :
  MultiProjectionTransformer.fit ONone ONone unfitted_projection
  = (projection, Ok projection) /\
  MultiProjectionTransformer.transform projection (fun _ _ => one) (Mat X1) ONone ONone
  = MultiProjectionTransformer.transform projection (fun _ _ => f1e2) (Mat X1)
      ONone ONone.
Proof.
  split; [reflexivity|].
  apply (transform_is_deterministic (np := numpy) unfitted_projection
           unfitted_projection projection projection projection projection
           ONone ONone ONone ONone); reflexivity.
Defined.

End ProjectionRuns.

(* ================================================================= *)
(** ** The factorisation engine *)

Section EngineFacts.

(** C7.  Whatever the sample, the dictionary and [alpha], an all-zero
    mask makes [solve] return the zero code vector, one entry per
    dictionary row, and no error. *)
Theorem all_zero_mask_gives_zero_code (ridge : list (list Q) -> list Q -> Q -> list Q)
  (sample : list Q) (mask : list bool) (dictionary : list (list Q)) (alpha : Q) :
  CodeSolver.all_zero mask = true ->
  CodeSolver.solve ridge sample mask dictionary alpha
  = inr (repeat 0%Q (List.length dictionary)) /\
  List.length (repeat 0%Q (List.length dictionary)) = List.length dictionary.
Proof.
  intros Hmask. unfold CodeSolver.solve. rewrite Hmask.
  split; [reflexivity|apply repeat_length].
Qed.

(** Why no computation is needed there: an all-zero mask keeps no column
    of the sample or of a dictionary row. *)
Lemma masked_all_zero (mask : list bool) (r : list Q) :
  CodeSolver.all_zero mask = true -> CodeSolver.masked mask r = [].
Proof.
  revert r. induction mask as [|b mask IH]; intros r Hmask; [reflexivity|].
  unfold CodeSolver.all_zero in Hmask. cbn [forallb] in Hmask.
  apply andb_true_iff in Hmask. destruct Hmask as [Hb Hmask].
  destruct b; [discriminate Hb|].
  destruct r as [|x r]; [reflexivity|]. cbn [CodeSolver.masked].
  apply IH. exact Hmask.
Qed.

Local Open Scope Q_scope.

Variable norm : list Q -> Q.

(** The one property of a norm the projection relies on. *)
Hypothesis norm_scale :
  forall (c : Q) (r : list Q), 0 <= c -> norm (map (Qmult c) r) == c * norm r.

Lemma project_bounded (r : list Q) : norm (DictionaryUpdater.project norm r) <= 1.
Proof.
  unfold DictionaryUpdater.project.
  destruct (Qle_bool (norm r) 1) eqn:Hle.
  - apply Qle_bool_iff. exact Hle.
  - assert (Hgt : 1 < norm r).
    { apply Qnot_le_lt. intros H. apply Qle_bool_iff in H. congruence. }
    assert (Hpos : 0 < norm r) by (eapply Qlt_trans; [|exact Hgt]; reflexivity).
    rewrite norm_scale by (apply Qlt_le_weak, Qinv_lt_0_compat; exact Hpos).
    rewrite Qmult_comm, Qmult_inv_r by (intros H; rewrite H in Hpos; discriminate).
    apply Qle_refl.
Qed.

Variable weight : nat -> Q.
Variable accumulate :
  Q -> DictionaryUpdater.statistics -> list Q -> list Q -> DictionaryUpdater.statistics.
Variable descend :
  DictionaryUpdater.statistics -> list (list Q) -> list nat -> nat -> list Q.
Variable steps : nat.

Lemma sweep_bounded (s : DictionaryUpdater.statistics) (subset : list nat)
  (done todo : list (list Q)) :
  DictionaryUpdater.rows_bounded norm done ->
  DictionaryUpdater.rows_bounded norm
    (DictionaryUpdater.sweep norm descend s subset done todo).
Proof.
  revert done. induction todo as [|r todo IH]; intros done Hdone;
    cbn [DictionaryUpdater.sweep].
  - exact Hdone.
  - apply IH. apply Forall_app. split; [exact Hdone|].
    constructor; [apply project_bounded|constructor].
Qed.

Lemma descent_bounded (n : nat) (s : DictionaryUpdater.statistics)
  (subset : list nat) (dictionary : list (list Q)) :
  DictionaryUpdater.rows_bounded norm dictionary ->
  DictionaryUpdater.rows_bounded norm
    (DictionaryUpdater.descent norm descend n s subset dictionary).
Proof.
  revert dictionary. induction n as [|n IH]; intros dictionary Hd;
    cbn [DictionaryUpdater.descent].
  - exact Hd.
  - apply IH. apply sweep_bounded. constructor.
Qed.

(** C8.  The row-norm bound is an invariant of [update]: from a
    dictionary whose rows have norm at most one, the dictionary [update]
    returns has rows of norm at most one, each recomputed row having
    been projected back. *)
Theorem update_keeps_rows_bounded (s : DictionaryUpdater.statistics)
  (dictionary : list (list Q)) (code sample : list Q) (subset : list nat) (t : nat) :
  DictionaryUpdater.rows_bounded norm dictionary ->
  DictionaryUpdater.rows_bounded norm
    (snd (DictionaryUpdater.update norm weight accumulate descend steps s dictionary
            code sample subset t)).
Proof.
  intros Hd. unfold DictionaryUpdater.update. cbn [snd].
  apply descent_bounded. exact Hd.
Qed.

(** Once a sweep has run, the bound holds whatever the dictionary was. *)
Lemma update_bounds_rows (s : DictionaryUpdater.statistics)
  (dictionary : list (list Q)) (code sample : list Q) (subset : list nat) (t : nat) :
  (0 < steps)%nat ->
  DictionaryUpdater.rows_bounded norm
    (snd (DictionaryUpdater.update norm weight accumulate descend steps s dictionary
            code sample subset t)).
Proof.
  intros Hsteps. unfold DictionaryUpdater.update. cbn [snd].
  destruct steps as [|n]; [lia|]. cbn [DictionaryUpdater.descent].
  apply descent_bounded. apply sweep_bounded. constructor.
Qed.

End EngineFacts.

Section EngineRuns.
Local Open Scope Q_scope.

Lemma l1_norm_scale (c : Q) (r : list Q) :
  0 <= c ->
  DictionaryUpdater.l1_norm (map (Qmult c) r) == c * DictionaryUpdater.l1_norm r.
Proof.
  intros Hc. induction r as [|x r IH]; cbn [map DictionaryUpdater.l1_norm fold_right].
  - ring.
  - fold (DictionaryUpdater.l1_norm (map (Qmult c) r)).
    fold (DictionaryUpdater.l1_norm r).
    rewrite IH, Qabs_Qmult, (Qabs_pos c Hc). ring.
Qed.

(** A sample with no observed feature against a two-component
    dictionary. *)
Lemma all_zero_mask_gives_zero_code_witness :
  CodeSolver.solve (fun _ _ _ => [1; 1]) [3; 4] [false; false] [[1; 0]; [0; 1]] (1 # 10)
  = inr [0; 0].
Proof.
  exact (proj1 (all_zero_mask_gives_zero_code (fun _ _ _ => [1; 1]) [3; 4]
                  [false; false] [[1; 0]; [0; 1]] (1 # 10) eq_refl)).
Defined.

(** One sweep under the sum of absolute values: a step that triples the
    row it is given is scaled back to norm one. *)
Lemma update_keeps_rows_bounded_witness :
  DictionaryUpdater.rows_bounded DictionaryUpdater.l1_norm [[1 # 2; 1 # 4]] /\
  DictionaryUpdater.rows_bounded DictionaryUpdater.l1_norm
    (snd (DictionaryUpdater.update DictionaryUpdater.l1_norm (fun _ => 1 # 2)
            (fun _ s _ _ => s)
            (fun _ d _ k => map (Qmult 3) (nth k d []))
            1 {| DictionaryUpdater.stat_A := []; DictionaryUpdater.stat_B := [] |}
            [[1 # 2; 1 # 4]] [1] [1; 1] [0%nat; 1%nat] 1)).
Proof.
  assert (H : DictionaryUpdater.rows_bounded DictionaryUpdater.l1_norm [[1 # 2; 1 # 4]])
    by (constructor; [vm_compute; discriminate|constructor]).
  split; [exact H|].
  exact (update_keeps_rows_bounded DictionaryUpdater.l1_norm l1_norm_scale
           (fun _ => 1 # 2) (fun _ s _ _ => s)
           (fun _ d _ k => map (Qmult 3) (nth k d [])) 1
           {| DictionaryUpdater.stat_A := []; DictionaryUpdater.stat_B := [] |}
           [[1 # 2; 1 # 4]] [1] [1; 1] [0%nat; 1%nat] 1%nat H).
Defined.

End EngineRuns.

(* ================================================================= *)
(** ** [MultiProjectionTransformer.fit]: when it returns and what it leaves *)

Section FitFacts.
Context {F : Type} {np : Numpy F}.

(** The run of a [fit] that returns, step by step. *)
Lemma fit_run (X y : object F) (s t r : MultiProjectionTransformer.t) :
  MultiProjectionTransformer.fit X y s = (t, Ok r) ->
  exists b items rows cols first,
    MultiProjectionTransformer.basis s = Some b /\
    iterate (MultiProjectionTransformer.bases s) = Ok items /\
    mapM (MultiProjectionTransformer.shape_at 0) items = Ok rows /\
    mapM (MultiProjectionTransformer.shape_at 1) items = Ok cols /\
    index cols 0 = Ok first /\
    forallb (Nat.eqb first) cols = true /\
    r = t /\
    t = fitted_state s b
          (if MultiProjectionTransformer.identity s
           then np_iadd (np_sum rows) first
           else np_sum rows).
Proof.
  unfold MultiProjectionTransformer.fit, bind, get, lift, modify, ret, raise.
  intros H. repeat case_scrutinee H.
  all: injection H as <- <-.
  all: cbn [MultiProjectionTransformer.n_loadings_
            MultiProjectionTransformer.set_n_loadings_
            MultiProjectionTransformer.set_basis getattr] in *.
  all: repeat match goal with E : Ok _ = Ok _ |- _ => injection E as <- end.
  all: match goal with
       | E : getattr (MultiProjectionTransformer.basis _) = Ok ?a |- _ =>
           exists a; destruct (MultiProjectionTransformer.basis s) eqn:Eb;
           [cbn in E; injection E as ->|discriminate E]
       end.
  all: do 4 eexists; repeat split; try eassumption; try reflexivity.
  all: unfold fitted_state;
       repeat match goal with
              | E : MultiProjectionTransformer.is_list _ = _ |- _ => rewrite E; clear E
              | E : MultiProjectionTransformer.identity _ = _ |- _ => rewrite E; clear E
              end;
       reflexivity.
Qed.

Lemma mapM_shape_at_0_of_matrices (ms : list (matrix F)) :
  mapM (MultiProjectionTransformer.shape_at 0) (map (fun m => OArray (Mat m)) ms)
  = Ok (map (@nrows F) ms).
Proof.
  induction ms as [|m ms IH]; cbn [map mapM]; [reflexivity|].
  rewrite IH. reflexivity.
Qed.

Lemma mapM_shape_at_1_of_matrices (ms : list (matrix F)) :
  mapM (MultiProjectionTransformer.shape_at 1) (map (fun m => OArray (Mat m)) ms)
  = Ok (map (@ncols F) ms).
Proof.
  induction ms as [|m ms IH]; cbn [map mapM]; [reflexivity|].
  rewrite IH. reflexivity.
Qed.

(** Iterating anything but a list gives elements that have no
    [shape[1]]: the scalars of a vector, the rows of a matrix. *)
Lemma iterate_with_widths (o : object F) (items : list (object F)) (c : nat)
  (cols : list nat) :
  iterate o = Ok items ->
  mapM (MultiProjectionTransformer.shape_at 1) items = Ok (c :: cols) ->
  o = OList items.
Proof.
  destruct o as [|x|[v|m]|l]; cbn [iterate]; try discriminate.
  - intros [= <-]. destruct v as [|x v]; cbn [map mapM]; discriminate.
  - intros [= <-]. destruct (nrows m) as [|n]; cbn [seq map mapM]; discriminate.
  - intros [= <-] _. reflexivity.
Qed.

Lemma forallb_eqb_map (first : nat) (ms : list (matrix F)) :
  forallb (Nat.eqb first) (map (@ncols F) ms) = true <->
  forall m, In m ms -> ncols m = first.
Proof.
  rewrite forallb_forall. split.
  - intros H m Hm. symmetry. apply Nat.eqb_eq. apply H. apply in_map. exact Hm.
  - intros H c Hc. apply in_map_iff in Hc. destruct Hc as (m & <- & Hm).
    apply Nat.eqb_eq. symmetry. apply H. exact Hm.
Qed.

(** [fit] returns only when [basis] had been assigned and iterating
    [bases] gives at least one element, every element has a [shape[0]]
    and a [shape[1]], and every [shape[1]] is the first one.  So it
    raises when [bases] is [None], a number, a one- or two-dimensional
    array of numbers (whose elements have no [shape[1]]) or an empty
    list. *)
Theorem fit_returns_only_on_shaped_items (X y : object F)
  (s t r : MultiProjectionTransformer.t) :
  MultiProjectionTransformer.fit X y s = (t, Ok r) ->
  MultiProjectionTransformer.basis s <> None /\
  (exists item items rows cols,
     iterate (MultiProjectionTransformer.bases s) = Ok (item :: items) /\
     mapM (MultiProjectionTransformer.shape_at 0) (item :: items) = Ok rows /\
     mapM (MultiProjectionTransformer.shape_at 1) (item :: items) = Ok cols /\
     forall c, In c cols -> c = hd 0%nat cols) /\
  MultiProjectionTransformer.bases s <> ONone /\
  (forall x, MultiProjectionTransformer.bases s <> OScalar x) /\
  (forall a, MultiProjectionTransformer.bases s <> OArray a) /\
  MultiProjectionTransformer.bases s <> OList [].
Proof.
  intros H. apply fit_run in H.
  destruct H as (b & items & rows & cols & first & Hb & Hit & Hr & Hc & Hf & Hall & _).
  split; [congruence|].
  destruct cols as [|c cols]; [discriminate Hf|].
  cbn [index nth_error] in Hf. injection Hf as ->.
  pose proof (iterate_with_widths _ _ _ _ Hit Hc) as Ho.
  destruct items as [|item items]; [discriminate Hc|].
  split.
  - exists item, items, rows, (first :: cols).
    split; [exact Hit|]. split; [exact Hr|]. split; [exact Hc|].
    intros c Hin. cbn [hd]. rewrite forallb_forall in Hall.
    symmetry. apply Nat.eqb_eq. apply Hall. exact Hin.
  - rewrite Ho. repeat split; intros; discriminate.
Qed.

Lemma wrap64_small (z : Z) : 0 <= z < 2 ^ 63 -> wrap64 z = z.
Proof.
  intros Hz. unfold wrap64.
  rewrite Z.mod_small by lia. lia.
Qed.

(** The steps of [fit] on a list of arrays, up to the assertion. *)
Lemma fit_on_matrices (X y : object F) (s : MultiProjectionTransformer.t)
  (b : object F) (m : matrix F) (ms : list (matrix F)) :
  MultiProjectionTransformer.basis s = Some b ->
  MultiProjectionTransformer.bases s = matrix_list (m :: ms) ->
  MultiProjectionTransformer.fit X y s =
  let rows := np_sum (map (@nrows F) (m :: ms)) in
  if forallb (Nat.eqb (ncols m)) (map (@ncols F) ms)
  then
    let t := fitted_state s b
               (if MultiProjectionTransformer.identity s
                then np_iadd rows (ncols m) else rows) in
    (t, Ok t)
  else (fitted_state s b rows, Raise AssertionError).
Proof.
  intros Hb Hbases.
  unfold MultiProjectionTransformer.fit, bind, get, lift, modify, ret, raise.
  unfold fitted_state.
  rewrite Hb, Hbases. cbn [getattr]. unfold matrix_list. cbn [iterate].
  rewrite (mapM_shape_at_0_of_matrices (m :: ms)).
  rewrite (mapM_shape_at_1_of_matrices (m :: ms)).
  cbn [map index nth_error forallb]. rewrite Nat.eqb_refl. cbn [andb].
  destruct (MultiProjectionTransformer.is_list b);
    destruct (forallb (Nat.eqb (ncols m)) (map (@ncols F) ms));
    cbn [MultiProjectionTransformer.identity MultiProjectionTransformer.set_basis
         MultiProjectionTransformer.set_n_loadings_
         MultiProjectionTransformer.n_loadings_ getattr];
    destruct (MultiProjectionTransformer.identity s); reflexivity.
Qed.

(** On such a list [fit] returns, leaving [bases] and [identity] as they
    were, [basis] a list (the one it was, or [bases] wrapped in one) and
    [n_loadings_] at the number of rows of all the bases, plus their
    width when the identity block is on (sums below [2^63]). *)
Theorem fit_counts_the_loadings (X y : object F) (s : MultiProjectionTransformer.t)
  (b : object F) (m : matrix F) (ms : list (matrix F)) :
  MultiProjectionTransformer.basis s = Some b ->
  MultiProjectionTransformer.bases s = matrix_list (m :: ms) ->
  (forall m', In m' ms -> ncols m' = ncols m) ->
  Z.of_nat (list_sum (map (@nrows F) (m :: ms)) + ncols m) < 2 ^ 63 ->
  exists t,
    MultiProjectionTransformer.fit X y s = (t, Ok t) /\
    MultiProjectionTransformer.bases t = MultiProjectionTransformer.bases s /\
    MultiProjectionTransformer.identity t = MultiProjectionTransformer.identity s /\
    MultiProjectionTransformer.basis t
    = Some (if MultiProjectionTransformer.is_list b then b
            else OList [MultiProjectionTransformer.bases s]) /\
    MultiProjectionTransformer.n_loadings_ t
    = Some (np_int64
              (Z.of_nat (list_sum (map (@nrows F) (m :: ms))
                         + (if MultiProjectionTransformer.identity s
                            then ncols m else 0)))).
Proof.
  intros Hb Hbases Hw Hsmall.
  rewrite (fit_on_matrices X y s b m ms Hb Hbases). cbv zeta.
  rewrite (proj2 (forallb_eqb_map (ncols m) ms) Hw).
  eexists. split; [reflexivity|].
  unfold fitted_state.
  split; [destruct (MultiProjectionTransformer.is_list b); reflexivity|].
  split; [destruct (MultiProjectionTransformer.is_list b); reflexivity|].
  split; [destruct (MultiProjectionTransformer.is_list b); cbn; congruence|].
  cbn [MultiProjectionTransformer.n_loadings_
       MultiProjectionTransformer.set_n_loadings_].
  rewrite np_sum_nonempty by discriminate.
  set (total := list_sum (map (@nrows F) (m :: ms))) in *.
  rewrite (wrap64_small (Z.of_nat total)) by lia.
  destruct (MultiProjectionTransformer.identity s); cbn [np_iadd].
  - rewrite <- Nat2Z.inj_add. rewrite wrap64_small by lia. reflexivity.
  - rewrite Nat.add_0_r. reflexivity.
Qed.

(** Bases of different widths fail the assertion of line 28, after
    [n_loadings_] has been assigned the row count: the object is left
    half fitted. *)
Theorem fit_rejects_unequal_widths (X y : object F)
  (s : MultiProjectionTransformer.t) (b : object F) (m m' : matrix F)
  (ms : list (matrix F)) :
  MultiProjectionTransformer.basis s = Some b ->
  MultiProjectionTransformer.bases s = matrix_list (m :: ms) ->
  In m' ms -> ncols m' <> ncols m ->
  exists t,
    MultiProjectionTransformer.fit X y s = (t, Raise AssertionError) /\
    MultiProjectionTransformer.n_loadings_ t
    = Some (np_int64 (wrap64 (Z.of_nat (list_sum (map (@nrows F) (m :: ms)))))).
Proof.
  intros Hb Hbases Hin Hne.
  rewrite (fit_on_matrices X y s b m ms Hb Hbases). cbv zeta.
  destruct (forallb (Nat.eqb (ncols m)) (map (@ncols F) ms)) eqn:Hall.
  - pose proof (proj1 (forallb_eqb_map (ncols m) ms) Hall m' Hin). contradiction.
  - eexists. split; [reflexivity|].
    unfold fitted_state.
    cbn [MultiProjectionTransformer.n_loadings_
         MultiProjectionTransformer.set_n_loadings_].
    rewrite np_sum_nonempty by discriminate. reflexivity.
Qed.

End FitFacts.

(* ================================================================= *)
(** ** [MultiProjectionTransformer.transform]: the array it returns *)

Section TransformFacts.
Context {F : Type} {np : Numpy F}.

Lemma setitem_cols_nrows (L L' : matrix F) (lo hi : nat) (v : ndarray F) :
  setitem_cols L lo hi v = Ok L' -> nrows L' = nrows L.
Proof.
  unfold setitem_cols. destruct (broadcast v _ _); [|discriminate].
  intros [= <-]. reflexivity.
Qed.

(** A slice assignment leaves the columns before the slice as they
    were. *)
Lemma setitem_cols_keeps_left (L L' : matrix F) (lo hi : nat) (v : ndarray F)
  (i j : nat) :
  setitem_cols L lo hi v = Ok L' ->
  (i < nrows L)%nat -> (j < ncols L)%nat -> (j < lo)%nat ->
  cell L' i j = cell L i j.
Proof.
  unfold setitem_cols. destruct (broadcast v _ _) as [f|]; [|discriminate].
  intros [= <-] Hi Hj Hlo. rewrite cell_tabulate by assumption.
  replace (Nat.min lo (ncols L) <=? j)%nat with false
    by (symmetry; apply Nat.leb_gt; lia).
  reflexivity.
Qed.

(** What the slice itself holds when the value has the slice's shape. *)
Lemma setitem_cols_writes (L L' : matrix F) (lo hi : nat) (m : matrix F)
  (i j : nat) :
  setitem_cols L lo hi (Mat m) = Ok L' ->
  nrows m = nrows L -> (lo + ncols m = hi)%nat -> (hi <= ncols L)%nat ->
  (i < nrows m)%nat -> (j < ncols m)%nat ->
  cell L' i (lo + j) = cell m i j.
Proof.
  unfold setitem_cols. intros H Hr Hc Hhi Hi Hj.
  replace (Nat.max (Nat.min lo (ncols L)) (Nat.min hi (ncols L))
           - Nat.min lo (ncols L))%nat with (ncols m) in H by lia.
  unfold broadcast in H. rewrite Hr, !Nat.eqb_refl in H. cbn [orb andb] in H.
  injection H as <-. rewrite cell_tabulate by lia.
  replace (Nat.min lo (ncols L) <=? lo + j)%nat with true
    by (symmetry; apply Nat.leb_le; lia).
  replace (lo + j <? Nat.max (Nat.min lo (ncols L)) (Nat.min hi (ncols L)))%nat
    with true by (symmetry; apply Nat.ltb_lt; lia).
  cbn [andb]. f_equal. lia.
Qed.

(** The loop keeps the shape of [loadings] and ends at the sum of the
    bases' row counts. *)
Lemma project_shape (items : list (object F)) (X : ndarray F) (L L' : matrix F)
  (off o : nat) :
  MultiProjectionTransformer.project items X L off = Ok (L', o) ->
  nrows L' = nrows L /\ ncols L' = ncols L /\
  exists rows,
    mapM (MultiProjectionTransformer.shape_at 0) items = Ok rows /\
    o = (off + list_sum rows)%nat.
Proof.
  revert L off. induction items as [|basis items IH]; intros L off;
    cbn [MultiProjectionTransformer.project mapM].
  - intros [= <- <-]. split; [reflexivity|]. split; [reflexivity|].
    exists []. split; [reflexivity|]. cbn [list_sum fold_right]. lia.
  - unfold obind.
    destruct (MultiProjectionTransformer.shape_at 0 basis) as [len|e]; [|discriminate].
    destruct (T_of basis) as [bT|e]; [|discriminate].
    destruct (linalg_solve bT (T X)) as [rhs|e]; [|discriminate].
    destruct (setitem_cols L off (off + len) rhs) as [L1|e] eqn:Hset; [|discriminate].
    intros H. apply IH in H. destruct H as (Hr & Hc & rows & Hrows & ->).
    rewrite Hr, Hc, Hrows.
    split; [eapply setitem_cols_nrows; exact Hset|].
    split; [eapply setitem_cols_ncols; exact Hset|].
    exists (len :: rows). split; [reflexivity|].
    change (list_sum (len :: rows)) with (len + list_sum rows)%nat. lia.
Qed.

(** The loop writes at [offset] and beyond only. *)
Lemma project_keeps_left (items : list (object F)) (X : ndarray F) (L L' : matrix F)
  (off o i j : nat) :
  MultiProjectionTransformer.project items X L off = Ok (L', o) ->
  (i < nrows L)%nat -> (j < ncols L)%nat -> (j < off)%nat ->
  cell L' i j = cell L i j.
Proof.
  revert L off. induction items as [|basis items IH]; intros L off;
    cbn [MultiProjectionTransformer.project].
  - intros [= <- _] _ _ _. reflexivity.
  - unfold obind.
    destruct (MultiProjectionTransformer.shape_at 0 basis) as [len|e]; [|discriminate].
    destruct (T_of basis) as [bT|e]; [|discriminate].
    destruct (linalg_solve bT (T X)) as [rhs|e]; [|discriminate].
    destruct (setitem_cols L off (off + len) rhs) as [L1|e] eqn:Hset; [|discriminate].
    intros H Hi Hj Hoff.
    rewrite (IH L1 (off + len)%nat H).
    + eapply setitem_cols_keeps_left; eassumption.
    + rewrite (setitem_cols_nrows _ _ _ _ _ Hset). exact Hi.
    + rewrite (setitem_cols_ncols _ _ _ _ _ Hset). exact Hj.
    + lia.
Qed.

(** The steps of a [transform] that returns. *)
Lemma transform_run (self : MultiProjectionTransformer.t) (u : nat -> nat -> F)
  (X : ndarray F) (y c : object F) (L : matrix F) :
  MultiProjectionTransformer.transform self u X y c = Ok L ->
  exists z items L1 o,
    MultiProjectionTransformer.n_loadings_ self = Some (np_int64 z) /\ 0 <= z /\
    iterate (MultiProjectionTransformer.bases self) = Ok items /\
    MultiProjectionTransformer.project items X
      (tabulate (shape0 X) (Z.to_nat z) u) 0 = Ok (L1, o) /\
    (if MultiProjectionTransformer.identity self
     then setitem_cols L1 o (ncols L1) X
     else Ok L1) = Ok L.
Proof.
  unfold MultiProjectionTransformer.transform, obind.
  destruct (MultiProjectionTransformer.n_loadings_ self) as [[z|x]|];
    cbn [getattr np_empty]; try discriminate.
  destruct (z <? 0) eqn:Hz; [discriminate|]. apply Z.ltb_ge in Hz.
  destruct (iterate (MultiProjectionTransformer.bases self)) as [items|e];
    [|discriminate].
  destruct (MultiProjectionTransformer.project items X _ 0) as [[L1 o]|e] eqn:Hp;
    [|discriminate].
  cbn [fst snd]. intros H. exists z, items, L1, o.
  split; [reflexivity|]. split; [exact Hz|]. split; [reflexivity|].
  split; [exact Hp|exact H].
Qed.

(** The array [transform] returns has one row for each row of [X] and
    [n_loadings_] columns, whatever the bases' row counts add up to: the
    slices are clipped to the columns there are.  It returns only when
    [n_loadings_] holds a non-negative integer. *)
Theorem transform_shape (self : MultiProjectionTransformer.t) (u : nat -> nat -> F)
  (X : ndarray F) (y c : object F) (L : matrix F) :
  MultiProjectionTransformer.transform self u X y c = Ok L ->
  exists z,
    MultiProjectionTransformer.n_loadings_ self = Some (np_int64 z) /\ 0 <= z /\
    nrows L = shape0 X /\ Z.of_nat (ncols L) = z.
Proof.
  intros H. apply transform_run in H.
  destruct H as (z & items & L1 & o & Hn & Hz & _ & Hp & Hid).
  exists z. split; [exact Hn|]. split; [exact Hz|].
  apply project_shape in Hp. destruct Hp as (Hr & Hc & _).
  cbn [nrows ncols tabulate] in Hr, Hc.
  destruct (MultiProjectionTransformer.identity self).
  - rewrite (setitem_cols_nrows _ _ _ _ _ Hid), (setitem_cols_ncols _ _ _ _ _ Hid).
    split; [exact Hr|]. rewrite Hc. lia.
  - injection Hid as <-. split; [exact Hr|]. rewrite Hc. lia.
Qed.

Lemma iterate_matrix_list (ms : list (matrix F)) :
  iterate (matrix_list ms) = Ok (map (fun m => OArray (Mat m)) ms).
Proof. reflexivity. Qed.

Lemma mapM_ok_inj {A B : Type} (f : A -> outcome B) (l : list A) (r1 r2 : list B) :
  mapM f l = Ok r1 -> mapM f l = Ok r2 -> r1 = r2.
Proof. congruence. Qed.

(** With the identity block on and [n_loadings_] as [fit] counts it for
    samples of the bases' width, the last columns of the result are the
    samples themselves. *)
Theorem transform_identity_block (self : MultiProjectionTransformer.t)
  (u : nat -> nat -> F) (x : matrix F) (y c : object F) (ms : list (matrix F))
  (L : matrix F) (i j : nat) :
  MultiProjectionTransformer.identity self = true ->
  MultiProjectionTransformer.bases self = matrix_list ms ->
  MultiProjectionTransformer.n_loadings_ self
  = Some (np_int64 (Z.of_nat (list_sum (map (@nrows F) ms) + ncols x))) ->
  MultiProjectionTransformer.transform self u (Mat x) y c = Ok L ->
  (i < nrows x)%nat -> (j < ncols x)%nat ->
  cell L i (list_sum (map (@nrows F) ms) + j) = cell x i j.
Proof.
  intros Hid Hb Hn H Hi Hj. apply transform_run in H.
  destruct H as (z & items & L1 & o & Hn' & _ & Hit & Hp & Hset).
  rewrite Hn in Hn'. injection Hn' as <-.
  rewrite Hb, iterate_matrix_list in Hit. injection Hit as <-.
  rewrite Hid in Hset. rewrite Nat2Z.id in Hp.
  apply project_shape in Hp. destruct Hp as (Hr & Hc & rows & Hrows & ->).
  rewrite mapM_shape_at_0_of_matrices in Hrows. injection Hrows as <-.
  cbn [nrows ncols tabulate shape0 Nat.add] in Hr, Hc, Hset.
  apply (setitem_cols_writes L1 L _ _ x i j Hset); lia.
Qed.

(** The first basis's block holds the solution of [basis.T @ S = X.T] as
    [linalg.solve] returned it, entry for entry: line 39 assigns it
    without transposing, so row [i] of the result is row [i] of [S],
    whose columns, not rows, go with the samples. *)
Theorem transform_first_block (self : MultiProjectionTransformer.t)
  (u : nat -> nat -> F) (X : ndarray F) (y c : object F) (b : matrix F)
  (bs : list (matrix F)) (z : Z) (S L : matrix F) (i j : nat) :
  MultiProjectionTransformer.bases self = matrix_list (b :: bs) ->
  MultiProjectionTransformer.n_loadings_ self = Some (np_int64 z) ->
  Z.of_nat (nrows b) <= z ->
  linalg_solve (T (Mat b)) (T X) = Ok (Mat S) ->
  nrows S = shape0 X -> ncols S = nrows b ->
  MultiProjectionTransformer.transform self u X y c = Ok L ->
  (i < nrows S)%nat -> (j < ncols S)%nat ->
  cell L i j = cell S i j.
Proof.
  intros Hb Hn Hz Hsolve HrS HcS H Hi Hj. apply transform_run in H.
  destruct H as (z' & items & L1 & o & Hn' & _ & Hit & Hp & Hset).
  rewrite Hn in Hn'. injection Hn' as <-.
  rewrite Hb, iterate_matrix_list in Hit. injection Hit as <-.
  cbn [map MultiProjectionTransformer.project] in Hp. unfold obind in Hp.
  change (MultiProjectionTransformer.shape_at 0 (OArray (Mat b))) with (Ok (nrows b))
    in Hp.
  cbn [T_of] in Hp. rewrite Hsolve in Hp. cbn [Nat.add] in Hp.
  destruct (setitem_cols (tabulate (shape0 X) (Z.to_nat z) u) 0 (nrows b) (Mat S))
    as [L0|e] eqn:H0; [|discriminate Hp].
  pose proof (setitem_cols_nrows _ _ _ _ _ H0) as Hr0.
  pose proof (setitem_cols_ncols _ _ _ _ _ H0) as Hc0.
  cbn [nrows ncols tabulate] in Hr0, Hc0.
  assert (Hcell0 : cell L0 i j = cell S i j).
  { apply (setitem_cols_writes _ L0 0 (nrows b) S i j H0);
      cbn [nrows ncols tabulate]; lia. }
  pose proof (project_shape _ _ _ _ _ _ Hp) as (Hr1 & Hc1 & rows & _ & Ho).
  assert (Hcell1 : cell L1 i j = cell S i j).
  { rewrite <- Hcell0. apply (project_keeps_left _ _ _ _ _ _ _ _ Hp); lia. }
  destruct (MultiProjectionTransformer.identity self).
  - rewrite <- Hcell1.
    apply (setitem_cols_keeps_left _ _ _ _ _ _ _ Hset); lia.
  - injection Hset as <-. exact Hcell1.
Qed.

(** Under numpy's shape contract for [linalg.solve], [transform] returns
    nothing unless [X] has exactly as many samples as the first basis has
    rows: the solution has one column for each sample, and line 39
    assigns it to a block that has one row for each sample. *)
Theorem transform_needs_square_samples (self : MultiProjectionTransformer.t)
  (u : nat -> nat -> F) (x : matrix F) (y c : object F) (b : matrix F)
  (bs : list (matrix F)) (z : Z) :
  solve_shapes ->
  MultiProjectionTransformer.bases self = matrix_list (b :: bs) ->
  MultiProjectionTransformer.n_loadings_ self = Some (np_int64 z) ->
  Z.of_nat (nrows b) <= z ->
  nrows x <> nrows b ->
  MultiProjectionTransformer.transform self u (Mat x) y c = Raise ValueError \/
  exists e,
    linalg_solve (T (Mat b)) (T (Mat x)) = Raise e /\
    MultiProjectionTransformer.transform self u (Mat x) y c = Raise e.
Proof.
  intros (Hsq & Hrows & Hshape) Hb Hn Hz Hne.
  unfold MultiProjectionTransformer.transform, obind.
  rewrite Hn, Hb. cbn [getattr np_empty].
  replace (z <? 0) with false by (symmetry; apply Z.ltb_ge; lia).
  rewrite iterate_matrix_list.
  cbn [map MultiProjectionTransformer.project]. unfold obind.
  change (MultiProjectionTransformer.shape_at 0 (OArray (Mat b))) with (Ok (nrows b)).
  cbn [T_of].
  destruct (linalg_solve (T (Mat b)) (T (Mat x))) as [r|e] eqn:Hsolve.
  2:{ right. exists e. split; reflexivity. }
  left.
  pose proof (Hsq _ _ _ Hsolve) as Hsquare.
  pose proof (Hrows _ _ _ Hsolve) as Hsame.
  destruct (Hshape _ _ _ Hsolve) as (m & -> & Hrm & Hcm).
  cbn [nrows ncols tabulate] in Hsquare, Hsame, Hrm, Hcm.
  unfold setitem_cols at 1. cbn [nrows ncols tabulate shape0 Nat.add].
  replace (Nat.max (Nat.min 0 (Z.to_nat z)) (Nat.min (nrows b) (Z.to_nat z))
           - Nat.min 0 (Z.to_nat z))%nat with (nrows b) by lia.
  unfold broadcast. rewrite Hrm, Hcm.
  replace (nrows x =? nrows b)%nat with false
    by (symmetry; apply Nat.eqb_neq; exact Hne).
  destruct (nrows x =? 1)%nat eqn:H1.
  - apply Nat.eqb_eq in H1.
    replace (ncols x =? nrows x)%nat with false
      by (symmetry; apply Nat.eqb_neq; lia).
    replace (ncols x =? 1)%nat with false
      by (symmetry; apply Nat.eqb_neq; lia).
    reflexivity.
  - rewrite Bool.andb_false_r. reflexivity.
Qed.

End TransformFacts.

Section ProjectionMoreRuns.
Import Reference.

(** The 1x1 basis: [fit] returns and counts two loadings. *)
Lemma fit_returns_only_on_shaped_items_witness :
  MultiProjectionTransformer.fit ONone ONone unfitted_projection
  = (projection, Ok projection) /\
  MultiProjectionTransformer.basis unfitted_projection <> None /\
  (exists item items rows cols,
     iterate (MultiProjectionTransformer.bases unfitted_projection)
     = Ok (item :: items) /\
     mapM (MultiProjectionTransformer.shape_at 0) (item :: items) = Ok rows /\
     mapM (MultiProjectionTransformer.shape_at 1) (item :: items) = Ok cols /\
     forall c, In c cols -> c = hd 0%nat cols) /\
  MultiProjectionTransformer.bases unfitted_projection <> ONone /\
  (forall x, MultiProjectionTransformer.bases unfitted_projection <> OScalar x) /\
  (forall a, MultiProjectionTransformer.bases unfitted_projection <> OArray a) /\
  MultiProjectionTransformer.bases unfitted_projection <> OList [].
Proof.
  split; [reflexivity|].
  exact (fit_returns_only_on_shaped_items (np := numpy) ONone ONone
           unfitted_projection projection projection eq_refl).
Defined.

Lemma fit_counts_the_loadings_witness :
  exists t,
    MultiProjectionTransformer.fit (np := numpy) ONone ONone unfitted_projection
    = (t, Ok t) /\
    MultiProjectionTransformer.bases t = OList [OArray (Mat X1)] /\
    MultiProjectionTransformer.identity t = true /\
    MultiProjectionTransformer.basis t = Some (OList [OList [OArray (Mat X1)]]) /\
    MultiProjectionTransformer.n_loadings_ t = Some (np_int64 2).
Proof.
  apply (fit_counts_the_loadings (np := numpy) ONone ONone unfitted_projection
           ONone X1 []).
  - reflexivity.
  - reflexivity.
  - intros m' [].
  - vm_compute. reflexivity.
Defined.

(** A 1x1 basis beside a 1x2 one: the assertion fails with
    [n_loadings_] at two. *)
Lemma fit_rejects_unequal_widths_witness :
  exists t,
    MultiProjectionTransformer.fit (np := numpy) ONone ONone Variants.mixed_projection
    = (t, Raise AssertionError) /\
    MultiProjectionTransformer.n_loadings_ t = Some (np_int64 2).
Proof.
  apply (fit_rejects_unequal_widths (np := numpy) ONone ONone
           Variants.mixed_projection ONone X1 Variants.wide [Variants.wide]).
  - reflexivity.
  - reflexivity.
  - left. reflexivity.
  - discriminate.
Defined.

Lemma transform_shape_witness :
  MultiProjectionTransformer.transform projection (fun _ _ => f1e2) (Mat X1)
    ONone ONone
  = Ok {| nrows := 1; ncols := 2; cells := [[one; one]] |} /\
  exists z,
    MultiProjectionTransformer.n_loadings_ projection = Some (np_int64 z) /\ 0 <= z /\
    nrows {| nrows := 1; ncols := 2; cells := [[one; one]] |} = shape0 (Mat X1) /\
    Z.of_nat (ncols {| nrows := 1; ncols := 2; cells := [[one; one]] |}) = z.
Proof.
  split; [reflexivity|].
  exact (transform_shape (np := numpy) projection (fun _ _ => f1e2) (Mat X1)
           ONone ONone _ eq_refl).
Defined.

(** The second column of the result is the sample. *)
Lemma transform_identity_block_witness :
  MultiProjectionTransformer.transform projection (fun _ _ => f1e2) (Mat X1)
    ONone ONone
  = Ok {| nrows := 1; ncols := 2; cells := [[one; one]] |} /\
  cell (np := numpy) {| nrows := 1; ncols := 2; cells := [[one; one]] |} 0 (1 + 0)
  = cell X1 0 0.
Proof.
  split; [reflexivity|].
  apply (transform_identity_block (np := numpy) projection (fun _ _ => f1e2) X1
           ONone ONone [X1]); try reflexivity; vm_compute; lia.
Defined.

(** The first column of the result is the solution of the 1x1 system. *)
Lemma transform_first_block_witness :
  linalg_solve (T (Mat X1)) (T (Mat X1))
  = Ok (Mat {| nrows := 1; ncols := 1; cells := [[fdiv one one]] |}) /\
  MultiProjectionTransformer.transform projection (fun _ _ => f1e2) (Mat X1)
    ONone ONone
  = Ok {| nrows := 1; ncols := 2; cells := [[one; one]] |} /\
  cell (np := numpy) {| nrows := 1; ncols := 2; cells := [[one; one]] |} 0 0
  = cell {| nrows := 1; ncols := 1; cells := [[fdiv one one]] |} 0 0.
Proof.
  split; [reflexivity|]. split; [reflexivity|].
  apply (transform_first_block (np := numpy) projection (fun _ _ => f1e2) (Mat X1)
           ONone ONone X1 [] 2); try reflexivity; vm_compute; first [lia|discriminate].
Defined.

(** The stand-in that solves row systems keeps numpy's shapes. *)
Lemma row_systems_solve_shapes : solve_shapes (np := RowSystems.numpy).
Proof.
  unfold solve_shapes. split; [|split].
  - intros a b r H. cbn [linalg_solve RowSystems.numpy] in H.
    repeat case_scrutinee H. subst. reflexivity.
  - intros a b r H. cbn [linalg_solve RowSystems.numpy] in H.
    repeat case_scrutinee H. subst. reflexivity.
  - intros a b r H. cbn [linalg_solve RowSystems.numpy] in H.
    repeat case_scrutinee H. subst. injection H as <-.
    eexists. split; [reflexivity|]. split; reflexivity.
Qed.

(** Two samples against the 1x1 basis: the solution is a 1x2 array, the
    block it is assigned to is 2x1. *)
Lemma transform_needs_square_samples_witness :
  nrows RowSystems.X2 <> nrows X1 /\
  MultiProjectionTransformer.transform (np := RowSystems.numpy) projection
    (fun _ _ => f1e2) (Mat RowSystems.X2) ONone ONone
  = Raise ValueError.
Proof.
  split; [discriminate|].
  destruct (transform_needs_square_samples (np := RowSystems.numpy) projection
              (fun _ _ => f1e2) RowSystems.X2 ONone ONone X1 [] 2
              row_systems_solve_shapes eq_refl eq_refl
              ltac:(vm_compute; discriminate) ltac:(discriminate))
    as [H|(e & He & _)]; [exact H|].
  vm_compute in He. discriminate He.
Defined.

End ProjectionMoreRuns.

(* ================================================================= *)
(** ** [fMRITaskClassifier]: what [fit] leaves on the object *)

Section ClassifierFitFacts.
Context {sk : Sklearn} {Imgs Confounds : Type}.

Local Abbreviation classifier := (fMRITaskClassifier.t (Imgs := Imgs) (Confounds := Confounds)).

(** The paths through [fit]. *)
Lemma fit_paths (imgs : Imgs) (y : labels) (confounds : option Confounds)
  (s : classifier * world) :
  fMRITaskClassifier.fit imgs y confounds s =
  match getattr (attr_transform (fMRITaskClassifier.transformer (fst s))) with
  | Raise e => (s, Raise e)
  | Ok transform =>
      match transform imgs confounds with
      | Raise e => (s, Raise e)
      | Ok X =>
          match LabelEncoder_fit_transform y with
          | Raise e => ((fMRITaskClassifier.set_le_ None (fst s), snd s), Raise e)
          | Ok cy =>
              let self := fMRITaskClassifier.set_le_ (Some (fst cy)) (fst s) in
              match fMRITaskClassifier.fit_call (fst s) X (snd cy) (snd s) with
              | (w, Raise e) => ((self, w), Raise e)
              | (w, Ok lr) => ((fMRITaskClassifier.set_lr_ lr self, w), Ok tt)
              end
          end
      end
  end.
Proof.
  unfold fMRITaskClassifier.fit, fMRITaskClassifier.assign,
    fMRITaskClassifier.in_world, bind, get, lift, modify.
  destruct (getattr (attr_transform (fMRITaskClassifier.transformer (fst s))))
    as [transform|e]; [|reflexivity].
  destruct (transform imgs confounds) as [X|e]; [|reflexivity].
  destruct (LabelEncoder_fit_transform y) as [cy|e]; [|reflexivity].
  cbn [fst snd].
  change (fMRITaskClassifier.fit_call
            (fMRITaskClassifier.set_le_ (Some (fst cy))
               (fMRITaskClassifier.set_le_ None (fst s))) X (snd cy) (snd s))
    with (fMRITaskClassifier.fit_call (fst s) X (snd cy) (snd s)).
  destruct (fMRITaskClassifier.fit_call (fst s) X (snd cy) (snd s)) as [w [lr|e]];
    reflexivity.
Qed.

(** [fit] changes neither the transformer nor a hyper-parameter: they
    are as they were on each path, the failing ones included.  ([memory]
    and [memory_level] belong to the inherited [_cache] and are left
    out.) *)
Theorem fit_keeps_hyperparameters (imgs : Imgs) (y : labels)
  (confounds : option Confounds) (s : classifier * world) :
  let self := fst s in
  let self' := fst (fst (fMRITaskClassifier.fit imgs y confounds s)) in
  fMRITaskClassifier.transformer self' = fMRITaskClassifier.transformer self /\
  fMRITaskClassifier.standardize self' = fMRITaskClassifier.standardize self /\
  fMRITaskClassifier.C self' = fMRITaskClassifier.C self /\
  fMRITaskClassifier.tol self' = fMRITaskClassifier.tol self /\
  fMRITaskClassifier.max_iter self' = fMRITaskClassifier.max_iter self /\
  fMRITaskClassifier.n_jobs self' = fMRITaskClassifier.n_jobs self /\
  fMRITaskClassifier.random_state self' = fMRITaskClassifier.random_state self.
Proof.
  cbv zeta. rewrite fit_paths.
  destruct (getattr (attr_transform (fMRITaskClassifier.transformer (fst s))))
    as [transform|e]; [|repeat split].
  destruct (transform imgs confounds) as [X|e]; [|repeat split].
  destruct (LabelEncoder_fit_transform y) as [cy|e]; [|repeat split].
  cbv zeta.
  destruct (fMRITaskClassifier.fit_call (fst s) X (snd cy) (snd s)) as [w [lr|e]];
    repeat split.
Qed.

(** A [fit] that fails once the transformer has returned leaves the
    model of the last completed [fit] in [lr_], beside a new label
    encoder in [le_]: fitted on the new labels, or not fitted when the
    encoding is what failed. *)
Theorem failed_fit_keeps_the_old_model (imgs : Imgs) (y : labels)
  (confounds : option Confounds) (s : classifier * world)
  (transform : Imgs -> option Confounds -> outcome array) (X : array) (e : exn) :
  attr_transform (fMRITaskClassifier.transformer (fst s)) = Some transform ->
  transform imgs confounds = Ok X ->
  snd (fMRITaskClassifier.fit imgs y confounds s) = Raise e ->
  let self' := fst (fst (fMRITaskClassifier.fit imgs y confounds s)) in
  fMRITaskClassifier.lr_ self' = fMRITaskClassifier.lr_ (fst s) /\
  fMRITaskClassifier.le_ self'
  = Some match LabelEncoder_fit_transform y with
         | Ok cy => Some (fst cy)
         | Raise _ => None
         end.
Proof.
  intros Htr HX. rewrite fit_paths, Htr. cbn [getattr]. rewrite HX.
  destruct (LabelEncoder_fit_transform y) as [cy|e']; [|intros _; split; reflexivity].
  cbv zeta.
  destruct (fMRITaskClassifier.fit_call (fst s) X (snd cy) (snd s)) as [w [lr|e']];
    cbn [fst snd]; [discriminate|].
  intros _. split; reflexivity.
Qed.

(** What a completed [fit] left. *)
Lemma fit_returned (imgs : Imgs) (y : labels) (confounds : option Confounds)
  (s s' : classifier * world) :
  fMRITaskClassifier.fit imgs y confounds s = (s', Ok tt) ->
  exists cy lr,
    LabelEncoder_fit_transform y = Ok cy /\
    fst s' = fMRITaskClassifier.set_lr_ lr
               (fMRITaskClassifier.set_le_ (Some (fst cy)) (fst s)).
Proof.
  rewrite fit_paths.
  destruct (attr_transform (fMRITaskClassifier.transformer (fst s)))
    as [transform|]; cbn [getattr]; [|discriminate].
  destruct (transform imgs confounds) as [X|e]; [|discriminate].
  destruct (LabelEncoder_fit_transform y) as [cy|e]; [|discriminate].
  cbv zeta.
  destruct (fMRITaskClassifier.fit_call (fst s) X (snd cy) (snd s)) as [w [lr|e]];
    [|discriminate].
  intros [= <-]. exists cy, lr. split; reflexivity.
Qed.

(** [fit] then [predict], on a transformer that can be called: the
    labels are the predictions of the estimator [fit] left in [lr_], made
    on what the transformer's [__call__] returns and decoded with the
    classes of the labels [fit] was given; [predict] leaves the object as
    it was. *)
Theorem fit_then_predict (imgs imgs' : Imgs) (y : labels)
  (confounds confounds' : option Confounds) (s s' : classifier * world)
  (call : Imgs -> option Confounds -> outcome array) (X' : array) :
  fMRITaskClassifier.fit imgs y confounds s = (s', Ok tt) ->
  attr_call (fMRITaskClassifier.transformer (fst s)) = Some call ->
  call imgs' confounds' = Ok X' ->
  exists cs ty lr,
    LabelEncoder_fit_transform y = Ok (cs, ty) /\
    fMRITaskClassifier.le_ (fst s') = Some (Some cs) /\
    fMRITaskClassifier.lr_ (fst s') = Some lr /\
    fMRITaskClassifier.predict imgs' confounds' s'
    = (s', match estimator_predict (params_ lr) (coef_ lr) X' with
           | Ok ty' => LabelEncoder_inverse_transform (Some cs) ty'
           | Raise e => Raise e
           end).
Proof.
  intros Hfit Hcall HX'.
  destruct (fit_returned _ _ _ _ _ Hfit) as ([cs ty] & lr & Hle & Hs').
  exists cs, ty, lr. cbn [fst snd] in *.
  split; [exact Hle|].
  split; [rewrite Hs'; reflexivity|]. split; [rewrite Hs'; reflexivity|].
  unfold fMRITaskClassifier.predict, bind, get, lift.
  rewrite Hs'.
  cbn [fMRITaskClassifier.transformer fMRITaskClassifier.set_lr_
       fMRITaskClassifier.set_le_ fMRITaskClassifier.lr_ fMRITaskClassifier.le_].
  rewrite Hcall. cbn [callable]. rewrite HX'. cbn [getattr].
  destruct (estimator_predict (params_ lr) (coef_ lr) X') as [ty'|e]; [|reflexivity].
  destruct (LabelEncoder_inverse_transform (Some cs) ty'); reflexivity.
Qed.

(** The routine without an iterable [C] raises and leaves the library
    untouched. *)
Lemma scalar_C_makes_no_call (X : array) (y : target) (standardize : bool)
  (C tol max_iter early_tol early_max_iter test_size n_jobs verbose
   random_state : value) (w : world) :
  hasattr_iter C = false ->
  exists e,
    _logistic_regression X y standardize C tol max_iter early_tol early_max_iter
      test_size n_jobs verbose random_state w = (w, Raise e).
Proof.
  intros HC.
  pose proof (logistic_regression_prelude X y standardize C tol max_iter early_tol
                early_max_iter test_size n_jobs verbose random_state w) as H.
  destruct (resolve_early_tol tol early_tol) as [et|e]; [|eexists; exact H].
  destruct (resolve_early_max_iter max_iter early_max_iter) as [em|e];
    [|eexists; exact H].
  cbv zeta in H. unfold bind at 1, lift, build_grid in H. rewrite HC in H.
  eexists; exact H.
Qed.

(** With a [C] that is not iterable, the default [C=1] of [__init__]
    among them, [fit] trains nothing: it raises on every input, makes no
    call of the library's fitting routines, and leaves [lr_] as it was. *)
Theorem fit_with_scalar_C_trains_nothing (imgs : Imgs) (y : labels)
  (confounds : option Confounds) (s : classifier * world) :
  hasattr_iter (fMRITaskClassifier.C (fst s)) = false ->
  let run := fMRITaskClassifier.fit imgs y confounds s in
  (exists e, snd run = Raise e) /\
  snd (fst run) = snd s /\
  fMRITaskClassifier.lr_ (fst (fst run)) = fMRITaskClassifier.lr_ (fst s).
Proof.
  intros HC. cbv zeta. rewrite fit_paths.
  destruct (getattr (attr_transform (fMRITaskClassifier.transformer (fst s))))
    as [transform|e]; [|repeat split; eexists; reflexivity].
  destruct (transform imgs confounds) as [X|e]; [|repeat split; eexists; reflexivity].
  destruct (LabelEncoder_fit_transform y) as [cy|e];
    [|repeat split; eexists; reflexivity].
  cbv zeta. unfold fMRITaskClassifier.fit_call, fMRITaskClassifier._cache.
  destruct (scalar_C_makes_no_call X (snd cy) (fMRITaskClassifier.standardize (fst s))
              (fMRITaskClassifier.C (fst s)) (fMRITaskClassifier.tol (fst s))
              (fMRITaskClassifier.max_iter (fst s)) VNone VNone default_test_size
              (fMRITaskClassifier.n_jobs (fst s)) default_verbose
              (fMRITaskClassifier.random_state (fst s)) (snd s) HC) as [e ->].
  repeat split. eexists; reflexivity.
Qed.

End ClassifierFitFacts.

Section ClassifierMoreRuns.
Import Reference.

(** A classifier from [__init__]: the transformer returns, the labels
    are encoded, the tuple in [max_iter] ends the call. *)
Lemma failed_fit_keeps_the_old_model_witness :
  let run := fMRITaskClassifier.fit (Mat X1) ["a"] None (fresh_classifier, w0) in
  snd run = Raise TypeError /\
  fMRITaskClassifier.lr_ (fst (fst run)) = None /\
  fMRITaskClassifier.le_ (fst (fst run)) = Some (Some ["a"]).
Proof.
  cbv zeta.
  assert (H : snd (fMRITaskClassifier.fit (Mat X1) ["a"] None (fresh_classifier, w0))
              = Raise TypeError) by (vm_compute; reflexivity).
  split; [exact H|].
  exact (failed_fit_keeps_the_old_model (sk := sklearn) (Mat X1) ["a"] None
           (fresh_classifier, w0) _ _ TypeError eq_refl eq_refl H).
Defined.

(** One sample labelled ["a"]: the fitted classifier predicts ["a"]. *)
Lemma fit_then_predict_witness :
  let s' := fst (fMRITaskClassifier.fit (Mat X1) ["a"] None
                   (Variants.callable_classifier, w0)) in
  snd (fMRITaskClassifier.fit (Mat X1) ["a"] None (Variants.callable_classifier, w0))
  = Ok tt /\
  snd (fMRITaskClassifier.predict (Mat X1) None s') = Ok ["a"].
Proof.
  cbv zeta.
  assert (Hfit : snd (fMRITaskClassifier.fit (Mat X1) ["a"] None
                        (Variants.callable_classifier, w0)) = Ok tt)
    by (vm_compute; reflexivity).
  split; [exact Hfit|].
  assert (Hrun : fMRITaskClassifier.fit (Mat X1) ["a"] None
                   (Variants.callable_classifier, w0)
                 = (fst (fMRITaskClassifier.fit (Mat X1) ["a"] None
                           (Variants.callable_classifier, w0)), Ok tt))
    by (rewrite <- Hfit; apply surjective_pairing).
  destruct (fit_then_predict (sk := sklearn) _ (Mat X1) _ _ None _ _ _
              {| nrows := 1; ncols := 2; cells := [[one; one]] |}
              Hrun eq_refl eq_refl)
    as (cs & ty & lr & Hle & _ & _ & Hp).
  rewrite Hp. cbn [snd]. vm_compute in Hle. injection Hle as <- <-. reflexivity.
Defined.

(** The default [C=1] with an integer [max_iter]. *)
Lemma fit_with_scalar_C_trains_nothing_witness :
  let run := fMRITaskClassifier.fit (Mat X1) ["a"] None
               (Variants.scalar_classifier, w0) in
  (exists e, snd run = Raise e) /\
  snd (fst run) = w0 /\
  fMRITaskClassifier.lr_ (fst (fst run)) = None.
Proof.
  exact (fit_with_scalar_C_trains_nothing (sk := sklearn) (Mat X1) ["a"] None
           (Variants.scalar_classifier, w0) eq_refl).
Defined.

End ClassifierMoreRuns.

(* ================================================================= *)
(** ** The routine and its two relatives in the scripts *)

Section ScriptFacts.
Context {sk : Sklearn}.

Variables (X_train : array) (y_train : target) (standardize : bool).

(** The search is the first call the routine makes when [C] is iterable
    and the two search-phase settings have been computed. *)
Lemma search_is_the_first_call (C tol max_iter early_tol early_max_iter test_size
  n_jobs verbose random_state : value) (w : world) (et em : value) :
  hasattr_iter C = true ->
  resolve_early_tol tol early_tol = Ok et ->
  resolve_early_max_iter max_iter early_max_iter = Ok em ->
  exists rest,
    log (fst (_logistic_regression X_train y_train standardize C tol max_iter
                early_tol early_max_iter test_size n_jobs verbose random_state w))
    = (log w
       ++ Call_GridSearchCV_fit
            {| GridSearchCV.estimator :=
                 build_estimator standardize C et em verbose random_state;
               GridSearchCV.param_grid := [("logistic_regression__C", C)];
               GridSearchCV.cv := {| ShuffleSplit.test_size := test_size |};
               GridSearchCV.refit := false;
               GridSearchCV.n_jobs := n_jobs |} X_train y_train :: rest)%list.
Proof.
  intros HC Het Hem.
  pose proof (logistic_regression_prelude X_train y_train standardize C tol max_iter
                early_tol early_max_iter test_size n_jobs verbose random_state w) as H.
  rewrite Het, Hem in H. cbv zeta in H. rewrite H; clear H.
  set (lr := build_estimator standardize C et em verbose random_state).
  rewrite (build_grid_iterable C test_size n_jobs lr HC).
  set (g := {| GridSearchCV.estimator := lr |}).
  unfold bind, lift, local, ret, call_GridSearchCV_fit, call_set_params, call_fit.
  cbn [lib log].
  destruct (GridSearchCV_fit g X_train y_train (lib w)) as [r1 [best|e1]];
    [|exists []; reflexivity].
  destruct (set_params lr best) as [lr1|e2];
    [|eexists; cbn [fst log]; rewrite <- !app_assoc; reflexivity].
  destruct (set_params lr1 (refit_params tol max_iter)) as [lr2|e3];
    [|eexists; cbn [fst log]; rewrite <- !app_assoc; reflexivity].
  cbn [lib log].
  destruct (estimator_fit lr2 X_train y_train r1) as [r2 [c|e4]];
    eexists; cbn [fst log]; rewrite <- !app_assoc; reflexivity.
Qed.

(** [max_iter / 10] is a true division: whatever [max_iter] is, the
    quotient is a float, or an array of floats, and never an integer. *)
Lemma early_max_iter_not_an_int (max_iter em : value) (n : Z) :
  resolve_early_max_iter max_iter VNone = Ok em -> em <> VInt n.
Proof.
  unfold resolve_early_max_iter. cbn [is_None]. unfold truediv_int.
  destruct max_iter as [|b|a|x|str|items|items|xs]; try discriminate.
  - destruct (int_truediv (Z.b2z b) 10); [|discriminate]. intros [= <-]. discriminate.
  - destruct (int_truediv a 10); [|discriminate]. intros [= <-]. discriminate.
  - destruct (float_of_int 10) as [d|]; [|discriminate].
    destruct (is_zero d); [discriminate|]. intros [= <-]. discriminate.
  - destruct (float_of_int 10) as [d|]; [|discriminate]. intros [= <-]. discriminate.
Qed.

(** With [early_max_iter] left unset, the logistic regression handed to
    the grid search never has an integer [max_iter]: line 106 divides
    with [/], so [1000] becomes [100.0]. *)
Theorem search_max_iter_is_not_an_int (C tol max_iter early_tol test_size n_jobs
  verbose random_state : value) (w : world) (et em : value) :
  hasattr_iter C = true ->
  resolve_early_tol tol early_tol = Ok et ->
  resolve_early_max_iter max_iter VNone = Ok em ->
  exists (g : GridSearchCV.t) (rest : list event),
    log (fst (_logistic_regression X_train y_train standardize C tol max_iter
                early_tol VNone test_size n_jobs verbose random_state w))
    = (log w ++ Call_GridSearchCV_fit g X_train y_train :: rest)%list /\
    option_map LogisticRegression.max_iter
      (logistic_regression_of (GridSearchCV.estimator g)) = Some em /\
    forall n, em <> VInt n.
Proof.
  intros HC Het Hem.
  destruct (search_is_the_first_call C tol max_iter early_tol VNone test_size n_jobs
              verbose random_state w et em HC Het Hem) as [rest Hlog].
  eexists _, rest. split; [exact Hlog|].
  split; [destruct standardize; reflexivity|].
  intros n. exact (early_max_iter_not_an_int max_iter em n Hem).
Qed.

(** The routine of [task_predict_from_nii.py] is the one of [fmri.py]
    called with [early_tol=1e-4], [early_max_iter=1000], [test_size=0.1]
    and [verbose=2]: the same library calls in the same states, the same
    result or exception. *)
Theorem from_nii_routine_is_the_routine_with_fixed_settings
  (C tol max_iter n_jobs random_state : value) (w : world) :
  task_predict_from_nii._logistic_regression X_train y_train standardize C tol
    max_iter n_jobs random_state w
  = _logistic_regression X_train y_train standardize C tol max_iter
      (VFloat f1e_4) (VInt 1000) (VFloat f0_1) n_jobs (VInt 2) random_state w.
Proof.
  pose proof (logistic_regression_prelude X_train y_train standardize C tol max_iter
                (VFloat f1e_4) (VInt 1000) (VFloat f0_1) n_jobs (VInt 2)
                random_state w) as H.
  cbn [resolve_early_tol resolve_early_max_iter is_None] in H. rewrite H.
  reflexivity.
Qed.

(** In the script too a [C] that is not iterable, its own default [C=1]
    included, ends in the [UnboundLocalError] of reading [grid_lr], here
    on every input: nothing that can raise comes first, and the library
    is not called. *)
Theorem from_nii_scalar_C_reads_unbound_grid_lr
  (C tol max_iter n_jobs random_state : value) (w : world) :
  hasattr_iter C = false ->
  task_predict_from_nii._logistic_regression X_train y_train standardize C tol
    max_iter n_jobs random_state w
  = (w, Raise UnboundLocalError).
Proof.
  intros HC. unfold task_predict_from_nii._logistic_regression, bind at 1, lift.
  rewrite HC. reflexivity.
Qed.

(** The routine of [task_predict.py] makes exactly one call into the
    library: the fit of the estimator, or with [cross_val] the fit of a
    grid search over [np.logspace(-1, 1, 10)] that refits.  It never
    calls [set_params], and it returns or raises as that one call does. *)
Theorem task_predict_routine_makes_one_call (logspace : value)
  (cross_val : bool) (n_jobs random_state : value) (w : world) :
  let run := task_predict._logistic_regression logspace X_train y_train standardize
               cross_val n_jobs random_state w in
  exists ev,
    log (fst run) = (log w ++ [ev])%list /\
    match ev with
    | Call_GridSearchCV_fit g X y =>
        cross_val = true /\ X = X_train /\ y = y_train /\
        GridSearchCV.refit g = true /\
        GridSearchCV.param_grid g = [("logistic_regression__C", logspace)] /\
        snd run = match snd (GridSearchCV_fit g X y (lib w)) with
                  | Ok best => Ok (task_predict.Search g best)
                  | Raise e => Raise e
                  end
    | Call_fit e X y =>
        cross_val = false /\ X = X_train /\ y = y_train /\
        snd run = match snd (estimator_fit e X y (lib w)) with
                  | Ok c => Ok (task_predict.Estimator {| params_ := e; coef_ := c |})
                  | Raise e' => Raise e'
                  end
    | Call_set_params _ _ => False
    end.
Proof.
  cbv zeta. unfold task_predict._logistic_regression.
  destruct cross_val.
  - unfold bind, ret, call_GridSearchCV_fit.
    match goal with
    | |- context [GridSearchCV_fit ?g X_train y_train (lib w)] =>
        destruct (GridSearchCV_fit g X_train y_train (lib w)) as [r [best|e]] eqn:Hg;
          exists (Call_GridSearchCV_fit g X_train y_train)
    end.
    all: cbn [fst snd log]; rewrite Hg; repeat split.
  - unfold bind, ret, call_fit.
    match goal with
    | |- context [estimator_fit ?lr X_train y_train (lib w)] =>
        destruct (estimator_fit lr X_train y_train (lib w)) as [r [c|e]] eqn:Hf;
          exists (Call_fit lr X_train y_train)
    end.
    all: cbn [fst snd log]; rewrite Hf; repeat split.
Qed.

End ScriptFacts.

Section ScriptRuns.
Import Reference.

(** The defaults with a list of candidates: the search runs at
    [max_iter=100.0]. *)
Lemma search_max_iter_is_not_an_int_witness :
  exists (g : GridSearchCV.t) (rest : list event),
    log (fst (_logistic_regression X1 [O] true grid_C default_tol default_max_iter
                VNone VNone default_test_size default_n_jobs default_verbose VNone
                w0))
    = Call_GridSearchCV_fit g X1 [O] :: rest /\
    option_map LogisticRegression.max_iter
      (logistic_regression_of (GridSearchCV.estimator g)) = Some (VFloat f1e2) /\
    forall n, VFloat f1e2 <> VInt n.
Proof.
  exact (search_max_iter_is_not_an_int (sk := sklearn) X1 [O] true grid_C
           default_tol default_max_iter VNone default_test_size default_n_jobs
           default_verbose VNone w0 _ (VFloat f1e2) eq_refl eq_refl eq_refl).
Defined.

(** The script's defaults. *)
Lemma from_nii_scalar_C_reads_unbound_grid_lr_witness :
  task_predict_from_nii._logistic_regression X1 [O] false (VInt 1) default_tol
    (VInt 1000) (VInt 1) VNone w0
  = (w0, Raise UnboundLocalError).
Proof.
  exact (from_nii_scalar_C_reads_unbound_grid_lr (sk := sklearn) X1 [O] false
           (VInt 1) default_tol (VInt 1000) (VInt 1) VNone w0 eq_refl).
Defined.

End ScriptRuns.
